(** * HACGraphManager: construction of a Hierarchical Actor-Critic graph

    Shallow embedding of [rl_coach/graph_managers/hac_graph_manager.py].
    The constructor [__init__] validates the hierarchy description and
    back-fills the agent parameter objects; [_create_graph] instantiates the
    environment and one level manager per agent, bottom level first.

    Python objects that the code mutates in place (the agent parameter
    objects) live in a heap indexed by references, so that a list naming the
    same object twice is modelled with its aliasing.  Raised exceptions and
    the instantiations done by collaborators are explicit: a computation
    returns an outcome together with the world it leaves behind. *)

From Stdlib Require Import ZArith List String Bool Arith Lia DecimalString.
Import ListNotations.
Open Scope string_scope.
Open Scope list_scope.
Open Scope nat_scope.
Set Warnings "-register-all".

(** [length] is the length of a list throughout. *)
Abbreviation length := List.length (only parsing).

(* ------------------------------------------------------------------ *)
(** ** Values handed to the constructor *)

(** [rl_coach.core_types.EnvironmentSteps]: a number of environment steps. *)
Record EnvironmentSteps := { num_steps : Z }.

(** The Python values that may reach the parameter
    [consecutive_steps_to_run_non_top_levels].  Python does not enforce the
    annotation [Union[EnvironmentSteps, List[EnvironmentSteps]]], so the other
    step kinds of [core_types], [None] and plain integers are kept. *)
Inductive PyValue :=
| PyNone
| PyInt (z : Z)
| PyEnvironmentSteps (s : EnvironmentSteps)
| PyEnvironmentEpisodes (n : Z)
| PyTrainingSteps (n : Z)
| PyList (items : list PyValue).

(** [isinstance(v, list)] *)
Definition isinstance_list (v : PyValue) : bool :=
  match v with PyList _ => true | _ => false end.

(** [isinstance(v, EnvironmentSteps)] *)
Definition isinstance_EnvironmentSteps (v : PyValue) : bool :=
  match v with PyEnvironmentSteps _ => true | _ => false end.

(** Configuration objects of collaborators; this file only moves them
    around, so each is an opaque tagged value. *)
Record Filter := { filter_tag : string }.
Record VisualizationParameters := { visualization_tag : string }.
Record TaskParameters := { task_tag : string }.
Record ScheduleParameters := { schedule_tag : string }.
Record PresetValidationParameters := { preset_tag : string }.

(** [EnvironmentParameters]: the class path and the two default filters.
    Calling [default_input_filter()] yields the filter held here. *)
Record EnvironmentParameters := {
  env_path : string;
  default_input_filter : Filter;
  default_output_filter : Filter
}.

(** [AgentParameters], restricted to the attributes this file reads or
    writes.  [None] is Python's [None]. *)
Record AgentParameters := {
  path : string;
  visualization : option VisualizationParameters;
  input_filter : option Filter;
  output_filter : option Filter;
  task_parameters : option TaskParameters;
  name : option string;
  is_a_highest_level_agent : bool;
  is_a_lowest_level_agent : bool
}.

Definition set_visualization (v : option VisualizationParameters)
  (p : AgentParameters) : AgentParameters :=
  {| path := path p; visualization := v; input_filter := input_filter p;
     output_filter := output_filter p; task_parameters := task_parameters p;
     name := name p;
     is_a_highest_level_agent := is_a_highest_level_agent p;
     is_a_lowest_level_agent := is_a_lowest_level_agent p |}.

Definition set_input_filter (f : option Filter) (p : AgentParameters)
  : AgentParameters :=
  {| path := path p; visualization := visualization p; input_filter := f;
     output_filter := output_filter p; task_parameters := task_parameters p;
     name := name p;
     is_a_highest_level_agent := is_a_highest_level_agent p;
     is_a_lowest_level_agent := is_a_lowest_level_agent p |}.

Definition set_output_filter (f : option Filter) (p : AgentParameters)
  : AgentParameters :=
  {| path := path p; visualization := visualization p;
     input_filter := input_filter p; output_filter := f;
     task_parameters := task_parameters p; name := name p;
     is_a_highest_level_agent := is_a_highest_level_agent p;
     is_a_lowest_level_agent := is_a_lowest_level_agent p |}.

Definition set_task_parameters (t : option TaskParameters)
  (p : AgentParameters) : AgentParameters :=
  {| path := path p; visualization := visualization p;
     input_filter := input_filter p; output_filter := output_filter p;
     task_parameters := t; name := name p;
     is_a_highest_level_agent := is_a_highest_level_agent p;
     is_a_lowest_level_agent := is_a_lowest_level_agent p |}.

Definition set_name (n : option string) (p : AgentParameters)
  : AgentParameters :=
  {| path := path p; visualization := visualization p;
     input_filter := input_filter p; output_filter := output_filter p;
     task_parameters := task_parameters p; name := n;
     is_a_highest_level_agent := is_a_highest_level_agent p;
     is_a_lowest_level_agent := is_a_lowest_level_agent p |}.

Definition set_is_a_highest_level_agent (b : bool) (p : AgentParameters)
  : AgentParameters :=
  {| path := path p; visualization := visualization p;
     input_filter := input_filter p; output_filter := output_filter p;
     task_parameters := task_parameters p; name := name p;
     is_a_highest_level_agent := b;
     is_a_lowest_level_agent := is_a_lowest_level_agent p |}.

Definition set_is_a_lowest_level_agent (b : bool) (p : AgentParameters)
  : AgentParameters :=
  {| path := path p; visualization := visualization p;
     input_filter := input_filter p; output_filter := output_filter p;
     task_parameters := task_parameters p; name := name p;
     is_a_highest_level_agent := is_a_highest_level_agent p;
     is_a_lowest_level_agent := b |}.

(* ------------------------------------------------------------------ *)
(** ** Instances built by collaborators *)

(** A reference to an [AgentParameters] object on the heap. *)
Definition Ref := nat.

(** The environment instance: its object identity and the arguments of the
    dynamically imported constructor. *)
Record Environment := {
  env_obj : nat;
  env_kwargs : EnvironmentParameters;
  env_visualization_parameters : VisualizationParameters
}.

(** The agent instance: its object identity, the parameter object it was
    built from, and what that object held at that moment. *)
Record Agent := {
  agent_obj : nat;
  agent_params_ref : Ref;
  agent_params_seen : AgentParameters
}.

(** A level manager records the arguments of [LevelManager(...)].  Its
    [environment] is the true environment or the level manager below. *)
Inductive LevelManager :=
  mkLevelManager (obj : nat) (agents_arg : Agent) (environment_arg : LowerEnv)
    (real_environment_arg : Environment) (steps_limit_arg : PyValue)
    (reset_arg : bool) (name_arg : string)
with LowerEnv :=
| TrueEnv (e : Environment)
| Below (lm : LevelManager).

Definition level_manager_obj (lm : LevelManager) : nat :=
  match lm with mkLevelManager o _ _ _ _ _ _ => o end.
Definition agents (lm : LevelManager) : Agent :=
  match lm with mkLevelManager _ a _ _ _ _ _ => a end.
Definition environment (lm : LevelManager) : LowerEnv :=
  match lm with mkLevelManager _ _ e _ _ _ _ => e end.
Definition real_environment (lm : LevelManager) : Environment :=
  match lm with mkLevelManager _ _ _ r _ _ _ => r end.
Definition steps_limit (lm : LevelManager) : PyValue :=
  match lm with mkLevelManager _ _ _ _ s _ _ => s end.
Definition should_reset_agent_state_after_time_limit_passes
  (lm : LevelManager) : bool :=
  match lm with mkLevelManager _ _ _ _ _ b _ => b end.
Definition level_manager_name (lm : LevelManager) : string :=
  match lm with mkLevelManager _ _ _ _ _ _ n => n end.

(* ------------------------------------------------------------------ *)
(** ** The world and the monad of computations *)

(** What collaborators were asked to instantiate, oldest first. *)
Inductive Event :=
| NewDefaultInputFilter
| NewDefaultOutputFilter
| NewEnvironment (obj : nat)
| NewAgent (obj : nat) (params : Ref)
| NewLevelManager (obj : nat).

Record World := {
  heap : Ref -> AgentParameters;
  next_obj : nat;
  trace : list Event
}.

Inductive Exn :=
| ValueError (msg : string)
| AttributeError (attr : string).

Inductive Outcome (A : Type) :=
| Ok (a : A)
| Raise (e : Exn).
Arguments Ok {A} a.
Arguments Raise {A} e.

Definition M (A : Type) : Type := World -> Outcome A * World.

Definition ret {A} (a : A) : M A := fun w => (Ok a, w).

Definition bind {A B} (m : M A) (k : A -> M B) : M B :=
  fun w => match m w with
           | (Ok a, w') => k a w'
           | (Raise e, w') => (Raise e, w')
           end.

Definition raise {A} (e : Exn) : M A := fun w => (Raise e, w).

Declare Scope py_scope.
Delimit Scope py_scope with py.
Notation "x <- m ;; k" := (bind m (fun x => k))
  (at level 100, m at next level, right associativity) : py_scope.
Notation "m ;;; k" := (bind m (fun _ => k))
  (at level 100, right associativity) : py_scope.
Open Scope py_scope.

(** Reading an attribute-bearing object: [heap[r]]. *)
Definition load (r : Ref) : M AgentParameters :=
  fun w => (Ok (heap w r), w).

(** In-place attribute assignment on the object behind [r]. *)
Definition store (r : Ref) (f : AgentParameters -> AgentParameters) : M unit :=
  fun w => (Ok tt,
            {| heap := fun r' => if Nat.eqb r' r then f (heap w r) else heap w r';
               next_obj := next_obj w;
               trace := trace w |}).

Definition log (e : Event) : M unit :=
  fun w => (Ok tt, {| heap := heap w; next_obj := next_obj w;
                      trace := trace w ++ [e] |}).

(** A fresh object identity. *)
Definition alloc : M nat :=
  fun w => (Ok (next_obj w),
            {| heap := heap w; next_obj := S (next_obj w); trace := trace w |}).

(** [for x in l: body(x)] *)
Fixpoint for_each {A} (l : list A) (body : A -> M unit) : M unit :=
  match l with
  | [] => ret tt
  | x :: rest => body x ;;; for_each rest body
  end.

(* ------------------------------------------------------------------ *)
(** ** The graph manager object *)

(** The part of [self] owned by the base class [GraphManager]. *)
Record GraphManager := {
  graph_name : string;
  schedule_parameters : ScheduleParameters;
  visualization_parameters : VisualizationParameters
}.

(** Modelled from the spec: the base-class constructor
    [GraphManager.__init__] is not part of this file.  It keeps the graph
    name and the scheduling parameters, and keeps [vis_params] as the shared
    [visualization_parameters] that is later propagated to every agent. *)
Definition GraphManager__init__ (graph : string)
  (schedule_params : ScheduleParameters) (vis_params : VisualizationParameters)
  : M GraphManager :=
  ret {| graph_name := graph; schedule_parameters := schedule_params;
         visualization_parameters := vis_params |}.

(** [self].  An attribute that was never assigned is [None] here: reading it
    raises [AttributeError] (see [getattr_consecutive_steps]). *)
Record HACGraphManager := {
  super : GraphManager;
  agents_params : list Ref;
  env_params : EnvironmentParameters;
  preset_validation_params : PresetValidationParameters;
  should_test_current_sub_goal : option bool;
  consecutive_steps_to_run_non_top_levels : option PyValue
}.

Definition set_consecutive_steps_to_run_non_top_levels (v : PyValue)
  (self : HACGraphManager) : HACGraphManager :=
  {| super := super self; agents_params := agents_params self;
     env_params := env_params self;
     preset_validation_params := preset_validation_params self;
     should_test_current_sub_goal := should_test_current_sub_goal self;
     consecutive_steps_to_run_non_top_levels := Some v |}.

(** [len(v)] for a list value. *)
Definition len (v : PyValue) : nat :=
  match v with PyList items => List.length items | _ => 0 end.

Definition mismatch_message : string :=
  "If the consecutive_steps_to_run_each_level is given as a list, it should match the number of levels in the hierarchy. Alternatively, it is possible to use a single value for all the levels, by passing an EnvironmentSteps".

Definition too_few_levels_message : string :=
  "The HAC graph manager must receive the agent parameters for at least two levels of the hierarchy. Otherwise, use the basic RL graph manager.".

Definition is_None {A} (o : option A) : bool :=
  match o with None => true | Some _ => false end.

(** Modelled from the spec: [EnvironmentParameters] is not part of this
    file; it is "an environment-configuration type exposing default
    filters".  The call [self.env_params.default_input_filter()]
    instantiates the default input filter and returns it. *)
Definition call_default_input_filter (ep : EnvironmentParameters) : M Filter :=
  log NewDefaultInputFilter ;;; ret (default_input_filter ep).

(** Modelled from the spec: as [call_default_input_filter], for
    [self.env_params.default_output_filter()]. *)
Definition call_default_output_filter (ep : EnvironmentParameters) : M Filter :=
  log NewDefaultOutputFilter ;;; ret (default_output_filter ep).

(** [__init__], lines 54-60: the check of the per-level duration. *)
Definition init_steps_to_run (self : HACGraphManager)
  (consecutive_steps : PyValue) : M HACGraphManager :=
  if isinstance_list consecutive_steps then
    if negb (len consecutive_steps =? List.length (agents_params self))
    then raise (ValueError mismatch_message)
    else ret self
  else if isinstance_EnvironmentSteps consecutive_steps then
    ret (set_consecutive_steps_to_run_non_top_levels consecutive_steps self)
  else ret self.

(** [__init__], lines 62-67: the loop over the agent parameter objects. *)
Definition init_fill_defaults (self : HACGraphManager) (params : list Ref)
  : M unit :=
  for_each params (fun agent_params =>
    store agent_params
      (set_visualization (Some (visualization_parameters (super self)))) ;;;
    p <- load agent_params ;;
    (if is_None (input_filter p) then
       f <- call_default_input_filter (env_params self) ;;
       store agent_params (set_input_filter (Some f))
     else ret tt) ;;;
    p <- load agent_params ;;
    (if is_None (output_filter p) then
       f <- call_default_output_filter (env_params self) ;;
       store agent_params (set_output_filter (Some f))
     else ret tt)).

(** [__init__], lines 69-71: the check of the number of levels. *)
Definition init_check_levels (self : HACGraphManager) : M unit :=
  if List.length (agents_params self) <? 2
  then raise (ValueError too_few_levels_message)
  else ret tt.

(** [__init__], lines 48-52: [self] before the duration is looked at. *)
Definition fresh_self (base : GraphManager) (agents_params_arg : list Ref)
  (env_params_arg : EnvironmentParameters)
  (preset_validation_params_arg : PresetValidationParameters)
  : HACGraphManager :=
  {| super := base;
     agents_params := agents_params_arg;
     env_params := env_params_arg;
     preset_validation_params := preset_validation_params_arg;
     should_test_current_sub_goal := None;
     consecutive_steps_to_run_non_top_levels := None |}.

(** [HACGraphManager.__init__] *)
Definition __init__ (agents_params_arg : list Ref)
  (env_params_arg : EnvironmentParameters)
  (schedule_params : ScheduleParameters) (vis_params : VisualizationParameters)
  (consecutive_steps : PyValue)
  (preset_validation_params_arg : PresetValidationParameters)
  : M HACGraphManager :=
  base <- GraphManager__init__ "hac_graph" schedule_params vis_params ;;
  let self := fresh_self base agents_params_arg env_params_arg
                preset_validation_params_arg in
  self <- init_steps_to_run self consecutive_steps ;;
  init_fill_defaults self agents_params_arg ;;;
  init_check_levels self ;;;
  ret self.

(* ------------------------------------------------------------------ *)
(** ** Building the graph *)

(** [prefix + "{}".format(idx)] *)
Definition format_index (prefix : string) (idx : nat) : string :=
  String.append prefix (NilEmpty.string_of_uint (Nat.to_uint idx)).

(** [list(enumerate(l))] *)
Definition enumerate {A} (l : list A) : list (nat * A) :=
  combine (seq 0 (List.length l)) l.

(** Reading [self.consecutive_steps_to_run_non_top_levels]. *)
Definition getattr_consecutive_steps (self : HACGraphManager) : M PyValue :=
  match consecutive_steps_to_run_non_top_levels self with
  | Some v => ret v
  | None => raise (AttributeError "consecutive_steps_to_run_non_top_levels")
  end.

(** Modelled from the spec: the "dynamic component-loading mechanism that
    instantiates a class from a configuration's declared path", here for
    the class that [self.env_params.path] names, called with the attributes
    of [env_params] and the shared visualization parameters.  It yields a
    new object and is taken not to raise. *)
Definition new_environment (ep : EnvironmentParameters)
  (vis : VisualizationParameters) : M Environment :=
  o <- alloc ;;
  log (NewEnvironment o) ;;;
  ret {| env_obj := o; env_kwargs := ep; env_visualization_parameters := vis |}.

(** Modelled from the spec: the same mechanism for
    [short_dynamic_import(agent_params.path)(agent_params)]; the new agent
    keeps the parameter object it was given. *)
Definition new_agent (agent_params : Ref) : M Agent :=
  p <- load agent_params ;;
  o <- alloc ;;
  log (NewAgent o agent_params) ;;;
  ret {| agent_obj := o; agent_params_ref := agent_params;
         agent_params_seen := p |}.

(** Modelled from the spec: [LevelManager] is not part of this file; it is
    "a level-manager constructor accepting (agent, lower environment, root
    environment, step budget, reset-on-timeout flag, name)".  The new
    object records the arguments it was called with. *)
Definition new_level_manager (agent : Agent) (current_env : LowerEnv)
  (env : Environment) (limit : PyValue) (reset : bool)
  (level_name : string) : M LevelManager :=
  o <- alloc ;;
  log (NewLevelManager o) ;;;
  ret (mkLevelManager o agent current_env env limit reset level_name).

(** The loop of lines 85-102 over [reversed(list(enumerate(...)))]:
    [level_managers] and [current_env] are the loop-carried variables. *)
Fixpoint build_levels (self : HACGraphManager) (env : Environment)
  (items : list (nat * Ref)) (level_managers : list LevelManager)
  (current_env : LowerEnv) : M (list LevelManager) :=
  match items with
  | [] => ret level_managers
  | (level_idx, agent_params) :: rest =>
      store agent_params (set_name (Some (format_index "agent_" level_idx))) ;;;
      store agent_params (set_is_a_highest_level_agent (level_idx =? 0)) ;;;
      store agent_params
        (set_is_a_lowest_level_agent
           (Z.of_nat level_idx
            =? Z.of_nat (List.length (agents_params self)) - 1)%Z) ;;;
      agent <- new_agent agent_params ;;
      limit <- (if level_idx =? 0
                then ret (PyEnvironmentSteps {| num_steps := 1 |})
                else getattr_consecutive_steps self) ;;
      level_manager <- new_level_manager agent current_env env limit
                         (0 <? level_idx) (format_index "level_" level_idx) ;;
      build_levels self env rest (level_manager :: level_managers)
        (Below level_manager)
  end.

(** [HACGraphManager._create_graph] *)
Definition _create_graph (self : HACGraphManager)
  (task_parameters_arg : TaskParameters)
  : M (list LevelManager * list Environment) :=
  env <- new_environment (env_params self)
           (visualization_parameters (super self)) ;;
  for_each (agents_params self) (fun agent_params =>
    store agent_params (set_task_parameters (Some task_parameters_arg))) ;;;
  level_managers <- build_levels self env
                      (rev (enumerate (agents_params self))) [] (TrueEnv env) ;;
  ret (level_managers, [env]).

(** Construction of the hierarchy as the graph-manager life cycle runs it:
    the constructor, then [_create_graph] on the object it returned. *)
Definition construct (agents_params_arg : list Ref)
  (env_params_arg : EnvironmentParameters)
  (schedule_params : ScheduleParameters) (vis_params : VisualizationParameters)
  (consecutive_steps : PyValue)
  (preset_validation_params_arg : PresetValidationParameters)
  (task_parameters_arg : TaskParameters)
  : M (list LevelManager * list Environment) :=
  self <- __init__ agents_params_arg env_params_arg schedule_params vis_params
            consecutive_steps preset_validation_params_arg ;;
  _create_graph self task_parameters_arg.

(* ------------------------------------------------------------------ *)
(** ** Sample inputs *)

Definition blank_agent : AgentParameters :=
  {| path := "rl_coach.agents.ddpg_agent:DDPGAgent";
     visualization := None; input_filter := None; output_filter := None;
     task_parameters := None; name := None;
     is_a_highest_level_agent := true; is_a_lowest_level_agent := true |}.

Definition sample_filter : Filter := {| filter_tag := "explicit" |}.

(** Object 1 comes with both filters set, every other object with none. *)
Definition sample_heap (r : Ref) : AgentParameters :=
  if r =? 1
  then set_output_filter (Some sample_filter)
         (set_input_filter (Some sample_filter) blank_agent)
  else blank_agent.

Definition sample_world : World :=
  {| heap := sample_heap; next_obj := 0; trace := [] |}.

Definition sample_env : EnvironmentParameters :=
  {| env_path := "rl_coach.environments.gym_environment:GymEnvironment";
     default_input_filter := {| filter_tag := "default_input" |};
     default_output_filter := {| filter_tag := "default_output" |} |}.

Definition sample_schedule : ScheduleParameters := {| schedule_tag := "s" |}.
Definition sample_vis : VisualizationParameters :=
  {| visualization_tag := "v" |}.
Definition sample_preset : PresetValidationParameters :=
  {| preset_tag := "p" |}.
Definition sample_task : TaskParameters := {| task_tag := "t" |}.
Definition steps (n : Z) : PyValue := PyEnvironmentSteps {| num_steps := n |}.


(** A three-level hierarchy whose top and bottom levels share one agent
    parameter object, with a scalar duration. *)
Definition sample_run : Outcome (list LevelManager * list Environment) * World :=
  construct [0; 1; 0] sample_env sample_schedule sample_vis (steps 5)
    sample_preset sample_task sample_world.

Definition sample_levels : list LevelManager :=
  match fst sample_run with Ok (lms, _) => lms | Raise _ => [] end.

Definition sample_envs : list Environment :=
  match fst sample_run with Ok (_, envs) => envs | Raise _ => [] end.


(* ------------------------------------------------------------------ *)
(** ** Descriptions used by the statements *)

(** The base-class part of [self] that [__init__] starts from. *)
Definition hac_base (schedule_params : ScheduleParameters)
  (vis_params : VisualizationParameters) : GraphManager :=
  {| graph_name := "hac_graph"; schedule_parameters := schedule_params;
     visualization_parameters := vis_params |}.

(** What one pass of the default-filling loop body leaves in an object. *)
Definition filled (vis : VisualizationParameters) (ep : EnvironmentParameters)
  (p : AgentParameters) : AgentParameters :=
  {| path := path p;
     visualization := Some vis;
     input_filter := Some (match input_filter p with
                           | Some f => f
                           | None => default_input_filter ep
                           end);
     output_filter := Some (match output_filter p with
                            | Some f => f
                            | None => default_output_filter ep
                            end);
     task_parameters := task_parameters p;
     name := name p;
     is_a_highest_level_agent := is_a_highest_level_agent p;
     is_a_lowest_level_agent := is_a_lowest_level_agent p |}.

(** [self] as [__init__] holds it when the duration is looked at. *)
Definition initial_self (agents_params_arg : list Ref)
  (env_params_arg : EnvironmentParameters)
  (schedule_params : ScheduleParameters) (vis_params : VisualizationParameters)
  (preset_validation_params_arg : PresetValidationParameters)
  : HACGraphManager :=
  fresh_self (hac_base schedule_params vis_params) agents_params_arg
    env_params_arg preset_validation_params_arg.

(** An event that instantiates an environment default filter. *)
Definition is_default_filter_event (e : Event) : bool :=
  match e with
  | NewDefaultInputFilter | NewDefaultOutputFilter => true
  | _ => false
  end.

(** The environment one level manager sees below the list [lms] that is
    stacked on [base]. *)
Definition lower_of (base : LowerEnv) (lms : list LevelManager) : LowerEnv :=
  match lms with
  | [] => base
  | below :: _ => Below below
  end.

(** [lms], top level first, is a chain: each manager is bound to the next
    one, the last to [base]. *)
Fixpoint linked (base : LowerEnv) (lms : list LevelManager) : Prop :=
  match lms with
  | [] => True
  | lm :: rest => environment lm = lower_of base rest /\ linked base rest
  end.

(** The arguments [LevelManager(...)] got for the item [(idx, r)]. *)
Definition built_for (self : HACGraphManager) (env : Environment)
  (item : nat * Ref) (lm : LevelManager) : Prop :=
  level_manager_name lm = format_index "level_" (fst item)
  /\ agent_params_ref (agents lm) = snd item
  /\ real_environment lm = env
  /\ should_reset_agent_state_after_time_limit_passes lm = (0 <? fst item)
  /\ (if fst item =? 0
      then steps_limit lm = PyEnvironmentSteps {| num_steps := 1 |}
      else consecutive_steps_to_run_non_top_levels self
           = Some (steps_limit lm)).

(** [w'] holds, in every agent parameter object, the visualization and the
    two filters that [w] holds there. *)
Definition same_filters (w w' : World) : Prop :=
  forall r,
    visualization (heap w' r) = visualization (heap w r)
    /\ input_filter (heap w' r) = input_filter (heap w r)
    /\ output_filter (heap w' r) = output_filter (heap w r).

(** The environment that [_create_graph] instantiates in world [w]. *)
Definition created_env (self : HACGraphManager) (w : World) : Environment :=
  {| env_obj := next_obj w; env_kwargs := env_params self;
     env_visualization_parameters := visualization_parameters (super self) |}.

(** The object of level [idx], out of [n_levels], once lines 86-88 have
    named and flagged it. *)
Definition prepared (n_levels idx : nat) (p : AgentParameters)
  : AgentParameters :=
  set_is_a_lowest_level_agent
    (Z.of_nat idx =? Z.of_nat n_levels - 1)%Z
    (set_is_a_highest_level_agent (idx =? 0)
       (set_name (Some (format_index "agent_" idx)) p)).

(** What the loop of lines 85-102 instantiates for [items], in order, when
    [o] is the first fresh identity: per item its agent, then its level
    manager. *)
Fixpoint level_events (o : nat) (items : list (nat * Ref)) : list Event :=
  match items with
  | [] => []
  | (_, r) :: rest =>
      NewAgent o r :: NewLevelManager (S o) :: level_events (S (S o)) rest
  end.

(** The object behind [r] after the loop went through [items]: it is
    [prepared] once for every item that names [r], in the order of the
    loop. *)
Definition relabelled (n_levels : nat) (items : list (nat * Ref)) (r : Ref)
  (p : AgentParameters) : AgentParameters :=
  fold_left (fun q item => if r =? snd item
                           then prepared n_levels (fst item) q
                           else q)
    items p.

(** [p] has the path, the visualization, the filters and the task
    parameters of [q]. *)
Definition kept_config (p q : AgentParameters) : Prop :=
  path p = path q
  /\ visualization p = visualization q
  /\ input_filter p = input_filter q
  /\ output_filter p = output_filter q
  /\ task_parameters p = task_parameters q.

(** The parameters the agent of [lm] was instantiated from carry the name
    and the flags of level [fst item] and otherwise what [p] holds. *)
Definition saw_level (n_levels : nat) (p : AgentParameters)
  (item : nat * Ref) (lm : LevelManager) : Prop :=
  name (agent_params_seen (agents lm))
  = Some (format_index "agent_" (fst item))
  /\ is_a_highest_level_agent (agent_params_seen (agents lm))
     = (fst item =? 0)
  /\ is_a_lowest_level_agent (agent_params_seen (agents lm))
     = (Z.of_nat (fst item) =? Z.of_nat n_levels - 1)%Z
  /\ kept_config (agent_params_seen (agents lm)) p.

(** The manager that a turn of the loop of lines 85-102 builds in world
    [w] for level [idx] and the object [r]. *)
Definition built (self : HACGraphManager) (env : Environment) (idx : nat)
  (r : Ref) (cur : LowerEnv) (limit : PyValue) (w : World) : LevelManager :=
  mkLevelManager (S (next_obj w))
    {| agent_obj := next_obj w; agent_params_ref := r;
       agent_params_seen :=
         prepared (length (agents_params self)) idx (heap w r) |}
    cur env limit (0 <? idx) (format_index "level_" idx).

(** The self that a returning constructor returns for the duration [v]. *)
Definition returned_self (agents_params_arg : list Ref)
  (env_params_arg : EnvironmentParameters)
  (schedule_params : ScheduleParameters) (vis_params : VisualizationParameters)
  (v : PyValue) (preset_validation_params_arg : PresetValidationParameters)
  : HACGraphManager :=
  if isinstance_list v
  then initial_self agents_params_arg env_params_arg schedule_params
         vis_params preset_validation_params_arg
  else if isinstance_EnvironmentSteps v
       then set_consecutive_steps_to_run_non_top_levels v
              (initial_self agents_params_arg env_params_arg schedule_params
                 vis_params preset_validation_params_arg)
       else initial_self agents_params_arg env_params_arg schedule_params
              vis_params preset_validation_params_arg.

(** A graph manager as the constructor returns it for three levels and a
    scalar duration, and [_create_graph] run on it. *)
Definition sample_self : HACGraphManager :=
  returned_self [0; 1; 0] sample_env sample_schedule sample_vis (steps 5)
    sample_preset.

Definition sample_graph
  : Outcome (list LevelManager * list Environment) * World :=
  _create_graph sample_self sample_task sample_world.

Definition sample_graph_levels : list LevelManager :=
  match fst sample_graph with Ok (lms, _) => lms | Raise _ => [] end.

Definition sample_graph_envs : list Environment :=
  match fst sample_graph with Ok (_, envs) => envs | Raise _ => [] end.

(** A graph manager as the constructor returns it for a duration list of
    matching length: the attribute is unset. *)
Definition sample_unset_self : HACGraphManager :=
  returned_self [0; 1] sample_env sample_schedule sample_vis
    (PyList [steps 5; steps 7]) sample_preset.

(** A second environment, with default filters of its own. *)
Definition other_env : EnvironmentParameters :=
  {| env_path := "rl_coach.environments.doom_environment:DoomEnvironment";
     default_input_filter := {| filter_tag := "doom_input" |};
     default_output_filter := {| filter_tag := "doom_output" |} |}.

Definition other_vis : VisualizationParameters :=
  {| visualization_tag := "v2" |}.

(** The world after a first constructor call on the objects 0 and 1. *)
Definition first_call : Outcome HACGraphManager * World :=
  __init__ [0; 1] sample_env sample_schedule sample_vis (steps 5)
    sample_preset sample_world.

(** A second constructor call, on the objects 0 and 2, in that world. *)
Definition second_call : Outcome HACGraphManager * World :=
  __init__ [0; 2] other_env sample_schedule other_vis (steps 3)
    sample_preset (snd first_call).

(* ------------------------------------------------------------------ *)
(** ** The constructor *)

Ltac run := unfold bind, ret, raise, store, load, log, alloc; simpl.

Lemma messages_differ : mismatch_message <> too_few_levels_message.
Proof. discriminate. Qed.

Section Constructor.

Variable agents_arg : list Ref.
Variable env_arg : EnvironmentParameters.
Variable schedule_arg : ScheduleParameters.
Variable vis_arg : VisualizationParameters.
Variable preset_arg : PresetValidationParameters.

(** One object after the loop body ran on it. *)
Lemma fill_body (self : HACGraphManager) (params : list Ref) (r : Ref)
  (w : World) :
  exists w1,
    init_fill_defaults self (r :: params) w
    = init_fill_defaults self params w1
    /\ next_obj w1 = next_obj w
    /\ (exists evs, trace w1 = trace w ++ evs
                    /\ forallb is_default_filter_event evs = true)
    /\ forall r', heap w1 r'
                  = if r' =? r
                    then filled (visualization_parameters (super self))
                           (env_params self) (heap w r)
                    else heap w r'.
Proof.
  unfold init_fill_defaults, call_default_input_filter,
    call_default_output_filter.
  simpl for_each. run. rewrite Nat.eqb_refl. simpl.
  destruct (input_filter (heap w r)) eqn:Ein; simpl;
    rewrite ?Nat.eqb_refl; simpl; rewrite ?Nat.eqb_refl; simpl;
    destruct (output_filter (heap w r)) eqn:Eout; simpl;
    (eexists; split; [reflexivity | simpl; split; [reflexivity | split]]).
  all: try (intros r'; destruct (r' =? r) eqn:Er; simpl;
            [ rewrite ?Nat.eqb_refl; simpl;
              unfold filled, set_visualization, set_input_filter,
                set_output_filter; simpl;
              rewrite ?Ein, ?Eout; reflexivity
            | reflexivity ]).
  - exists []. rewrite app_nil_r. split; reflexivity.
  - exists [NewDefaultOutputFilter]. split; reflexivity.
  - exists [NewDefaultInputFilter]. split; reflexivity.
  - exists [NewDefaultInputFilter; NewDefaultOutputFilter].
    rewrite <- app_assoc. split; reflexivity.
Qed.

Lemma filled_idem (vis : VisualizationParameters)
  (ep : EnvironmentParameters) (p : AgentParameters) :
  filled vis ep (filled vis ep p) = filled vis ep p.
Proof. reflexivity. Qed.

(** The whole loop of lines 62-67: it never raises, instantiates nothing
    but default filters, and leaves every listed object [filled]. *)
Lemma fill_loop (self : HACGraphManager) (params : list Ref) :
  forall w, exists w',
    init_fill_defaults self params w = (Ok tt, w')
    /\ next_obj w' = next_obj w
    /\ (exists evs, trace w' = trace w ++ evs
                    /\ forallb is_default_filter_event evs = true)
    /\ forall r, heap w' r
                 = if existsb (Nat.eqb r) params
                   then filled (visualization_parameters (super self))
                          (env_params self) (heap w r)
                   else heap w r.
Proof.
  induction params as [|a params IH]; intros w.
  - exists w. repeat split.
    exists []. rewrite app_nil_r. split; reflexivity.
  - destruct (fill_body self params a w)
      as (w1 & Hrun & Hobj & (evs1 & Htr1 & Hev1) & Hheap1).
    destruct (IH w1) as (w' & Hrest & Hobj' & (evs & Htr & Hev) & Hheap).
    exists w'. split; [congruence|]. split; [congruence|]. split.
    + exists (evs1 ++ evs). rewrite Htr, Htr1, app_assoc.
      split; [reflexivity|]. rewrite forallb_app, Hev1, Hev. reflexivity.
    + intros r. rewrite Hheap, !Hheap1. simpl.
      destruct (r =? a) eqn:Era; simpl.
      * apply Nat.eqb_eq in Era. subst r.
        destruct (existsb (Nat.eqb a) params);
          [apply filled_idem | reflexivity].
      * reflexivity.
Qed.

(** The constructor, phase by phase. *)
Lemma init_unfold (v : PyValue) (w : World) :
  __init__ agents_arg env_arg schedule_arg vis_arg v preset_arg w
  = match init_steps_to_run
            (initial_self agents_arg env_arg schedule_arg vis_arg preset_arg)
            v w with
    | (Ok self, w1) =>
        match init_fill_defaults self agents_arg w1 with
        | (Ok _, w2) =>
            if length agents_arg <? 2
            then (Raise (ValueError too_few_levels_message), w2)
            else (Ok self, w2)
        | (Raise e, w2) => (Raise e, w2)
        end
    | (Raise e, w1) => (Raise e, w1)
    end.
Proof.
  unfold __init__, GraphManager__init__, initial_self, hac_base. run.
  destruct (init_steps_to_run _ v w) as [[self|e] w1] eqn:Esteps;
    [|reflexivity].
  assert (Hag : agents_params self = agents_arg).
  { unfold init_steps_to_run in Esteps.
    destruct (isinstance_list v);
      [destruct (negb _)|destruct (isinstance_EnvironmentSteps v)];
      inversion Esteps; reflexivity. }
  destruct (init_fill_defaults self agents_arg w1) as [[[]|e] w2];
    [|reflexivity].
  unfold init_check_levels. rewrite Hag.
  destruct (length agents_arg <? 2); reflexivity.
Qed.

(** The duration check either raises the mismatch error with the world
    untouched or returns [self] with the same base part and environment
    parameters. *)
Lemma steps_block (v : PyValue) (w : World) :
  let self0 :=
    initial_self agents_arg env_arg schedule_arg vis_arg preset_arg in
  (isinstance_list v = true /\ len v <> length agents_arg
   /\ init_steps_to_run self0 v w = (Raise (ValueError mismatch_message), w))
  \/ (exists self,
        init_steps_to_run self0 v w = (Ok self, w)
        /\ (isinstance_list v = true -> len v = length agents_arg)
        /\ super self = hac_base schedule_arg vis_arg
        /\ env_params self = env_arg
        /\ agents_params self = agents_arg
        /\ consecutive_steps_to_run_non_top_levels self
           = if isinstance_list v then None
             else if isinstance_EnvironmentSteps v then Some v else None).
Proof.
  intros self0. unfold init_steps_to_run.
  destruct (isinstance_list v) eqn:El.
  - destruct (len v =? length (agents_params self0)) eqn:En; simpl.
    + right. exists self0. apply Nat.eqb_eq in En. repeat split; auto.
    + left. apply Nat.eqb_neq in En. repeat split; auto.
  - right. destruct (isinstance_EnvironmentSteps v); eexists;
      repeat split; auto; discriminate.
Qed.

End Constructor.

Lemma existsb_eqb_In (r : Ref) (l : list Ref) :
  In r l -> existsb (Nat.eqb r) l = true.
Proof.
  intros H. apply existsb_exists. exists r. split; [assumption|].
  apply Nat.eqb_refl.
Qed.

(** C2. With fewer than two agent parameter objects the constructor never
    returns: it raises a [ValueError] (the mismatch error when a duration
    list of another length was given, the too-few-levels error otherwise). *)
Theorem too_few_levels_rejected (agents : list Ref)
  (env : EnvironmentParameters) (sched : ScheduleParameters)
  (vis : VisualizationParameters) (v : PyValue)
  (preset : PresetValidationParameters) (w : World) :
  length agents < 2 ->
  exists msg w',
    __init__ agents env sched vis v preset w = (Raise (ValueError msg), w').
Proof.
  intros Hn. rewrite init_unfold.
  destruct (steps_block agents env sched vis preset v w)
    as [(_ & _ & Hraise) | (self & Hok & _)].
  - rewrite Hraise. eauto.
  - rewrite Hok.
    destruct (fill_loop self agents w) as (w' & Hfill & _).
    rewrite Hfill. apply Nat.ltb_lt in Hn. rewrite Hn. eauto.
Qed.

(** C3. A duration given as a list is compared with the number of agent
    parameter objects: when the lengths differ the constructor raises the
    mismatch [ValueError] at once, the world untouched; when they agree the
    check returns [self] unchanged and the constructor does not raise the
    mismatch error. *)
Theorem duration_list_length_checked (agents : list Ref)
  (env : EnvironmentParameters) (sched : ScheduleParameters)
  (vis : VisualizationParameters) (items : list PyValue)
  (preset : PresetValidationParameters) (w : World) :
  if length items =? length agents
  then init_steps_to_run (initial_self agents env sched vis preset)
         (PyList items) w
       = (Ok (initial_self agents env sched vis preset), w)
       /\ fst (__init__ agents env sched vis (PyList items) preset w)
          <> Raise (ValueError mismatch_message)
  else __init__ agents env sched vis (PyList items) preset w
       = (Raise (ValueError mismatch_message), w).
Proof.
  rewrite init_unfold. unfold init_steps_to_run. simpl.
  destruct (length items =? length agents) eqn:E; simpl; [|reflexivity].
  split; [reflexivity|].
  destruct (fill_loop (initial_self agents env sched vis preset) agents w)
    as (w' & Hfill & _).
  rewrite Hfill.
  destruct (length agents <? 2); simpl; [|discriminate].
  intros H. inversion H.
Qed.


(** C9. A duration that is neither a list nor an [EnvironmentSteps] makes
    the duration check return [self] as it was, without raising; the
    constructor then returns that [self], whose attribute
    [consecutive_steps_to_run_non_top_levels] is unset, unless there are
    fewer than two levels, in which case it raises the too-few-levels
    error. *)
Theorem other_duration_ignored (agents : list Ref)
  (env : EnvironmentParameters) (sched : ScheduleParameters)
  (vis : VisualizationParameters) (v : PyValue)
  (preset : PresetValidationParameters) (w : World) :
  isinstance_list v = false ->
  isinstance_EnvironmentSteps v = false ->
  init_steps_to_run (initial_self agents env sched vis preset) v w
  = (Ok (initial_self agents env sched vis preset), w)
  /\ consecutive_steps_to_run_non_top_levels
       (initial_self agents env sched vis preset) = None
  /\ exists w',
       __init__ agents env sched vis v preset w
       = (if length agents <? 2
          then Raise (ValueError too_few_levels_message)
          else Ok (initial_self agents env sched vis preset), w').
Proof.
  intros Hl Hs.
  assert (Hsteps :
            init_steps_to_run (initial_self agents env sched vis preset) v w
            = (Ok (initial_self agents env sched vis preset), w)).
  { unfold init_steps_to_run. rewrite Hl, Hs. reflexivity. }
  split; [exact Hsteps|]. split; [reflexivity|].
  rewrite init_unfold, Hsteps.
  destruct (fill_loop (initial_self agents env sched vis preset) agents w)
    as (w' & Hfill & _).
  rewrite Hfill. exists w'.
  destruct (length agents <? 2); reflexivity.
Qed.

(* ------------------------------------------------------------------ *)
(** ** The graph *)

Lemma same_filters_refl (w : World) : same_filters w w.
Proof. intros r. auto. Qed.

Lemma same_filters_trans (w1 w2 w3 : World) :
  same_filters w1 w2 -> same_filters w2 w3 -> same_filters w1 w3.
Proof.
  intros H12 H23 r. destruct (H12 r) as (Hv & Hi & Ho).
  destruct (H23 r) as (Hv' & Hi' & Ho'). repeat split; congruence.
Qed.

Section Graph.

Variable self : HACGraphManager.
Variable env : Environment.

(** One turn of the loop of lines 85-102: either the step budget is
    available and the loop goes on with the new manager on top, or
    reading the unset attribute raises. *)
Lemma build_step (idx : nat) (r : Ref) (rest : list (nat * Ref))
  (acc : list LevelManager) (cur : LowerEnv) (w : World) :
  exists agent w2,
    agent_params_ref agent = r
    /\ match (if idx =? 0
              then Some (PyEnvironmentSteps {| num_steps := 1 |})
              else consecutive_steps_to_run_non_top_levels self) with
       | Some limit =>
           exists o w3,
             same_filters w w3
             /\ build_levels self env ((idx, r) :: rest) acc cur w
                = build_levels self env rest
                    (mkLevelManager o agent cur env limit (0 <? idx)
                       (format_index "level_" idx) :: acc)
                    (Below (mkLevelManager o agent cur env limit (0 <? idx)
                              (format_index "level_" idx)))
                    w3
       | None =>
           same_filters w w2
           /\ build_levels self env ((idx, r) :: rest) acc cur w
              = (Raise
                   (AttributeError "consecutive_steps_to_run_non_top_levels"),
                 w2)
       end.
Proof.
  simpl build_levels. unfold new_agent, new_level_manager,
    getattr_consecutive_steps. run. rewrite !Nat.eqb_refl.
  destruct (idx =? 0); simpl;
    [| destruct (consecutive_steps_to_run_non_top_levels self); simpl ];
    (eexists {| agent_obj := next_obj w; agent_params_ref := r;
                agent_params_seen := _ |}).
  - exists w. split; [reflexivity|].
    exists (S (next_obj w)). eexists. split; [|reflexivity].
    intros r'. simpl. destruct (r' =? r) eqn:Er; simpl; auto.
    apply Nat.eqb_eq in Er. subst r'. auto.
  - exists w. split; [reflexivity|].
    exists (S (next_obj w)). eexists. split; [|reflexivity].
    intros r'. simpl. destruct (r' =? r) eqn:Er; simpl; auto.
    apply Nat.eqb_eq in Er. subst r'. auto.
  - eexists. split; [reflexivity|]. split; [|reflexivity].
    intros r'. simpl. destruct (r' =? r) eqn:Er; simpl; auto.
    apply Nat.eqb_eq in Er. subst r'. auto.
    Unshelve. exact (heap w r).
Qed.

(** What a completed loop returns: the managers of [items], last item
    first, stacked on the ones it started with. *)
Lemma build_levels_ok (base : LowerEnv) (items : list (nat * Ref)) :
  forall acc cur w lms w',
    linked base acc ->
    cur = lower_of base acc ->
    build_levels self env items acc cur w = (Ok lms, w') ->
    exists new,
      lms = new ++ acc
      /\ Forall2 (built_for self env) (rev items) new
      /\ linked base lms.
Proof.
  induction items as [|[idx r] rest IH]; intros acc cur w lms w' Hl Hc Hrun.
  - inversion Hrun; subst. exists [].
    split; [reflexivity|]. split; [constructor|assumption].
  - destruct (build_step idx r rest acc cur w) as (agent & w2 & Hr & Hstep).
    destruct (if idx =? 0 then _ else _) as [limit|] eqn:Elim.
    + destruct Hstep as (o & w3 & _ & Hstep). rewrite Hstep in Hrun.
      apply IH in Hrun; [| simpl; auto | reflexivity].
      destruct Hrun as (new & Hlms & Hall & Hlinked).
      exists (new ++ [mkLevelManager o agent cur env limit (0 <? idx)
                        (format_index "level_" idx)]).
      split; [rewrite <- app_assoc; exact Hlms|].
      split; [|exact Hlinked].
      simpl rev. apply Forall2_app; [exact Hall|].
      constructor; [|constructor].
      unfold built_for. simpl. repeat split; auto.
      destruct (idx =? 0); [congruence | exact Elim].
    + destruct Hstep as (_ & Hstep). rewrite Hstep in Hrun. discriminate.
Qed.

(** With the attribute set the loop always completes. *)
Lemma build_levels_total (v : PyValue) (items : list (nat * Ref)) :
  consecutive_steps_to_run_non_top_levels self = Some v ->
  forall acc cur w,
    exists lms w', build_levels self env items acc cur w = (Ok lms, w').
Proof.
  intros Hv. induction items as [|[idx r] rest IH]; intros acc cur w.
  - do 2 eexists. reflexivity.
  - destruct (build_step idx r rest acc cur w) as (agent & w2 & _ & Hstep).
    rewrite Hv in Hstep. destruct (idx =? 0);
      destruct Hstep as (o & w3 & _ & Hstep); rewrite Hstep; apply IH.
Qed.

(** With the attribute unset the loop raises on its first turn unless
    that turn is for level 0. *)
Lemma build_levels_unset (idx : nat) (r : Ref) (rest : list (nat * Ref))
  (acc : list LevelManager) (cur : LowerEnv) (w : World) :
  consecutive_steps_to_run_non_top_levels self = None ->
  idx <> 0 ->
  exists w',
    build_levels self env ((idx, r) :: rest) acc cur w
    = (Raise (AttributeError "consecutive_steps_to_run_non_top_levels"), w').
Proof.
  intros Hnone Hidx.
  destruct (build_step idx r rest acc cur w) as (agent & w2 & _ & Hstep).
  apply Nat.eqb_neq in Hidx. rewrite Hidx, Hnone in Hstep.
  exists w2. apply Hstep.
Qed.

(** Whatever the outcome, the loop leaves the visualization and the
    filters of every object alone. *)
Lemma build_levels_frame (items : list (nat * Ref)) :
  forall acc cur w out w',
    build_levels self env items acc cur w = (out, w') ->
    same_filters w w'.
Proof.
  induction items as [|[idx r] rest IH]; intros acc cur w out w' Hrun.
  - inversion Hrun; subst. apply same_filters_refl.
  - destruct (build_step idx r rest acc cur w) as (agent & w2 & _ & Hstep).
    destruct (if idx =? 0 then _ else _) as [limit|].
    + destruct Hstep as (o & w3 & Hframe & Hstep). rewrite Hstep in Hrun.
      apply IH in Hrun. eapply same_filters_trans; eassumption.
    + destruct Hstep as (Hframe & Hstep). rewrite Hstep in Hrun.
      inversion Hrun; subst. exact Hframe.
Qed.

End Graph.

(** *** Lists *)

Lemma enumerate_from_snoc {A} (l : list A) (x : A) :
  forall k,
    combine (seq k (length (l ++ [x]))) (l ++ [x])
    = combine (seq k (length l)) l ++ [(k + length l, x)].
Proof.
  induction l as [|a l IH]; intros k; simpl.
  - rewrite Nat.add_0_r. reflexivity.
  - rewrite IH. rewrite Nat.add_succ_comm. reflexivity.
Qed.

(** The loop of [_create_graph] starts at the bottom level. *)
Lemma rev_enumerate_head {A} (l : list A) :
  l <> [] ->
  exists x rest, rev (enumerate l) = (length l - 1, x) :: rest.
Proof.
  intros Hne. destruct (exists_last Hne) as (l' & x & ->).
  unfold enumerate. rewrite enumerate_from_snoc, rev_app_distr. simpl.
  rewrite length_app. simpl.
  replace (length l' + 1 - 1) with (length l') by lia.
  eauto.
Qed.

Lemma map_fst_enumerate_from {A} (l : list A) :
  forall k, map fst (combine (seq k (length l)) l) = seq k (length l).
Proof.
  induction l as [|a l IH]; intros k; simpl; [reflexivity|].
  rewrite IH. reflexivity.
Qed.

Lemma map_snd_enumerate_from {A} (l : list A) :
  forall k, map snd (combine (seq k (length l)) l) = l.
Proof.
  induction l as [|a l IH]; intros k; simpl; [reflexivity|].
  rewrite IH. reflexivity.
Qed.

Lemma Forall2_map_eq {A B C} (f : A -> C) (g : B -> C) (l : list A)
  (l' : list B) :
  Forall2 (fun a b => g b = f a) l l' -> map g l' = map f l.
Proof.
  induction 1; simpl; [reflexivity|]. congruence.
Qed.

Lemma Forall2_weaken {A B} (P Q : A -> B -> Prop) (l : list A) (l' : list B) :
  (forall a b, P a b -> Q a b) -> Forall2 P l l' -> Forall2 Q l l'.
Proof.
  intros HPQ. induction 1; constructor; auto.
Qed.


Lemma linked_environments (base : LowerEnv) (lms : list LevelManager) :
  linked base lms -> map environment lms = tl (map Below lms ++ [base]).
Proof.
  induction lms as [|lm rest IH]; simpl; [reflexivity|].
  intros [Henv Hrest]. rewrite Henv, (IH Hrest).
  destruct rest; reflexivity.
Qed.

(** *** [_create_graph] *)

(** The loop of lines 77-78 never raises, instantiates nothing and writes
    the task parameters only. *)
Lemma task_loop (tp : TaskParameters) (l : list Ref) :
  forall w, exists w',
    for_each l (fun r => store r (set_task_parameters (Some tp))) w
    = (Ok tt, w')
    /\ next_obj w' = next_obj w /\ trace w' = trace w
    /\ same_filters w w'.
Proof.
  induction l as [|a l IH]; intros w; simpl.
  - exists w. repeat split; auto.
  - run.
    destruct (IH {| heap := fun r' =>
                      if r' =? a
                      then set_task_parameters (Some tp) (heap w a)
                      else heap w r';
                    next_obj := next_obj w; trace := trace w |})
      as (w' & Hrun & Hobj & Htr & Hframe).
    exists w'. repeat split; auto; destruct (Hframe r) as (Hv & Hi & Ho);
      simpl in *; destruct (r =? a) eqn:Er;
      try (apply Nat.eqb_eq in Er; subst r); simpl in *; congruence.
Qed.

Lemma create_graph_unfold (self : HACGraphManager) (tp : TaskParameters)
  (w : World) :
  exists w1,
    same_filters w w1
    /\ _create_graph self tp w
    = match build_levels self (created_env self w)
              (rev (enumerate (agents_params self))) []
              (TrueEnv (created_env self w)) w1 with
      | (Ok lms, w') => (Ok (lms, [created_env self w]), w')
      | (Raise e, w') => (Raise e, w')
      end.
Proof.
  unfold _create_graph, new_environment, created_env.
  unfold bind, ret, log, alloc. simpl.
  match goal with
  | |- context [for_each ?l ?body ?w0] =>
      destruct (task_loop tp l w0) as (w1 & Hloop & _ & _ & Hframe)
  end.
  rewrite Hloop. exists w1. split; [exact Hframe|].
  destruct (build_levels _ _ _ _ _ w1) as [[lms|e] w']; reflexivity.
Qed.

(** [_create_graph] leaves the visualization and the filters of every
    agent parameter object as it found them, whatever its outcome. *)
Lemma create_graph_frame (self : HACGraphManager) (tp : TaskParameters)
  (w w' : World) (out : Outcome (list LevelManager * list Environment)) :
  _create_graph self tp w = (out, w') -> same_filters w w'.
Proof.
  destruct (create_graph_unfold self tp w) as (w1 & Hframe & ->).
  destruct (build_levels _ _ _ _ _ w1) as [[lms|e] w2] eqn:Hrun;
    intros H; inversion H; subst;
    apply build_levels_frame in Hrun;
    eapply same_filters_trans; eassumption.
Qed.

(** A returned graph: one environment, and one manager per agent
    parameter object, top level first, chained down to the environment. *)
Lemma create_graph_ok (self : HACGraphManager) (tp : TaskParameters)
  (w w' : World) (lms : list LevelManager) (envs : list Environment) :
  _create_graph self tp w = (Ok (lms, envs), w') ->
  envs = [created_env self w]
  /\ Forall2 (built_for self (created_env self w))
       (enumerate (agents_params self)) lms
  /\ linked (TrueEnv (created_env self w)) lms.
Proof.
  destruct (create_graph_unfold self tp w) as (w1 & _ & ->).
  destruct (build_levels _ _ _ _ _ w1) as [[lms0|e] w2] eqn:Hrun;
    intros H; inversion H; subst.
  apply (build_levels_ok self _ (TrueEnv (created_env self w))) in Hrun;
    [| exact I | reflexivity].
  destruct Hrun as (new & -> & Hall & Hlinked).
  rewrite app_nil_r in *. rewrite rev_involutive in Hall. auto.
Qed.

(** *** Constructor and graph together *)

Lemma construct_unfold (params : list Ref) (env : EnvironmentParameters)
  (sched : ScheduleParameters) (vis : VisualizationParameters) (v : PyValue)
  (preset : PresetValidationParameters) (tp : TaskParameters) (w : World) :
  construct params env sched vis v preset tp w
  = match __init__ params env sched vis v preset w with
    | (Ok g, w1) => _create_graph g tp w1
    | (Raise e, w1) => (Raise e, w1)
    end.
Proof. reflexivity. Qed.

(** What a returning constructor returns. *)
Lemma init_ok (params : list Ref) (env : EnvironmentParameters)
  (sched : ScheduleParameters) (vis : VisualizationParameters) (v : PyValue)
  (preset : PresetValidationParameters) (w w1 : World) (g : HACGraphManager) :
  __init__ params env sched vis v preset w = (Ok g, w1) ->
  2 <= length params
  /\ agents_params g = params
  /\ env_params g = env
  /\ super g = hac_base sched vis
  /\ next_obj w1 = next_obj w
  /\ consecutive_steps_to_run_non_top_levels g
     = if isinstance_list v then None
       else if isinstance_EnvironmentSteps v then Some v else None.
Proof.
  rewrite init_unfold.
  destruct (steps_block params env sched vis preset v w)
    as [(_ & _ & Hraise) | (self & Hok & _ & Hsuper & Henv & Hag & Hsteps)].
  - rewrite Hraise. discriminate.
  - rewrite Hok.
    destruct (fill_loop self params w) as (w2 & Hfill & Hobj & _).
    rewrite Hfill.
    destruct (length params <? 2) eqn:En; intros H; inversion H; subst.
    apply Nat.ltb_ge in En. auto 10.
Qed.

(** A returned construction, described level by level. *)
Lemma construct_ok (params : list Ref) (env : EnvironmentParameters)
  (sched : ScheduleParameters) (vis : VisualizationParameters) (v : PyValue)
  (preset : PresetValidationParameters) (tp : TaskParameters) (w w' : World)
  (lms : list LevelManager) (envs : list Environment) :
  construct params env sched vis v preset tp w = (Ok (lms, envs), w') ->
  exists g e,
    2 <= length params
    /\ consecutive_steps_to_run_non_top_levels g
       = (if isinstance_list v then None
          else if isinstance_EnvironmentSteps v then Some v else None)
    /\ e = {| env_obj := next_obj w; env_kwargs := env;
              env_visualization_parameters := vis |}
    /\ envs = [e]
    /\ Forall2 (built_for g e) (enumerate params) lms
    /\ linked (TrueEnv e) lms.
Proof.
  rewrite construct_unfold.
  destruct (__init__ params env sched vis v preset w) as [[g|e] w1] eqn:Hinit;
    [|discriminate].
  apply init_ok in Hinit.
  destruct Hinit as (Hn & Hag & Henv & Hsuper & Hobj & Hsteps).
  intros Hrun. apply create_graph_ok in Hrun.
  destruct Hrun as (Henvs & Hall & Hlinked).
  unfold created_env in *. rewrite Hag, Henv, Hsuper, Hobj in *. simpl in *.
  exists g. eexists. repeat split; eauto.
Qed.

(** A scalar duration and at least two levels: construction returns. *)
Lemma construct_succeeds (params : list Ref) (env : EnvironmentParameters)
  (sched : ScheduleParameters) (vis : VisualizationParameters)
  (s : EnvironmentSteps) (preset : PresetValidationParameters)
  (tp : TaskParameters) (w : World) :
  2 <= length params ->
  exists lms envs w',
    construct params env sched vis (PyEnvironmentSteps s) preset tp w
    = (Ok (lms, envs), w').
Proof.
  intros Hn. rewrite construct_unfold, init_unfold.
  destruct (steps_block params env sched vis preset (PyEnvironmentSteps s) w)
    as [(Hl & _) | (self & Hok & _ & _ & _ & _ & Hsteps)];
    [discriminate|].
  rewrite Hok.
  destruct (fill_loop self params w) as (w1 & Hfill & _).
  rewrite Hfill. apply Nat.ltb_ge in Hn. rewrite Hn.
  destruct (create_graph_unfold self tp w1) as (w2 & _ & ->).
  simpl in Hsteps.
  destruct (build_levels_total self (created_env self w1) _
              (rev (enumerate (agents_params self))) Hsteps []
              (TrueEnv (created_env self w1)) w2) as (lms & w' & ->).
  eauto.
Qed.

(** X5. The step budgets of a returned construction: one environment step
    for level 0, the constructor's duration argument, which then is an
    [EnvironmentSteps], for every other level. *)
Lemma step_budgets (params : list Ref) (env : EnvironmentParameters)
  (sched : ScheduleParameters) (vis : VisualizationParameters) (v : PyValue)
  (preset : PresetValidationParameters) (tp : TaskParameters) (w w' : World)
  (lms : list LevelManager) (envs : list Environment) :
  construct params env sched vis v preset tp w = (Ok (lms, envs), w') ->
  isinstance_EnvironmentSteps v = true
  /\ map steps_limit lms
     = map (fun idx => if idx =? 0
                       then PyEnvironmentSteps {| num_steps := 1 |}
                       else v)
         (seq 0 (length params)).
Proof.
  intros Hrun. apply construct_ok in Hrun.
  destruct Hrun as (g & e & Hn & Hsteps & _ & _ & Hall & _).
  assert (Hv : isinstance_EnvironmentSteps v = true
               /\ consecutive_steps_to_run_non_top_levels g = Some v).
  { destruct params as [|a [|b rest]]; simpl in Hn; try lia.
    inversion Hall as [|x lm l l' _ Hrest]; subst.
    inversion Hrest as [|x' lm' l0 l0' Hb _]; subst.
    destruct Hb as (_ & _ & _ & _ & Hb). simpl in Hb.
    rewrite Hb in Hsteps.
    destruct (isinstance_list v); [discriminate|].
    destruct (isinstance_EnvironmentSteps v); [|discriminate].
    split; [reflexivity|]. congruence. }
  destruct Hv as (Hv & Hfield). split; [exact Hv|].
  rewrite <- (map_fst_enumerate_from params 0), map_map.
  apply Forall2_map_eq. fold (enumerate params).
  eapply Forall2_weaken; [|exact Hall].
  intros [idx r] lm (_ & _ & _ & _ & Hb). simpl in *.
  destruct (idx =? 0); congruence.
Qed.

(** With the attribute unset and at least two levels, [_create_graph]
    raises [AttributeError] while it prepares the bottom level manager. *)
Lemma create_graph_unset (self : HACGraphManager) (tp : TaskParameters)
  (w : World) :
  consecutive_steps_to_run_non_top_levels self = None ->
  2 <= length (agents_params self) ->
  exists w',
    _create_graph self tp w
    = (Raise (AttributeError "consecutive_steps_to_run_non_top_levels"), w').
Proof.
  intros Hnone Hn.
  destruct (create_graph_unfold self tp w) as (w1 & _ & ->).
  destruct (rev_enumerate_head (agents_params self)) as (r & rest & ->).
  { intros Hnil. rewrite Hnil in Hn. simpl in Hn. lia. }
  destruct (build_levels_unset self (created_env self w)
              (length (agents_params self) - 1) r rest []
              (TrueEnv (created_env self w)) w1 Hnone) as (w' & ->);
    [lia|].
  eauto.
Qed.

(** C6. For a valid description (at least two levels, a duration list, if
    any, of matching length) the constructor returns, and every listed
    agent parameter object then holds the shared visualization parameters,
    the environment's default input (output) filter where it had none, and
    its own filter where it had one; its filters are not [None].  A later
    [_create_graph] on the returned object leaves these three attributes
    of every object as the constructor left them. *)
Theorem defaults_filled (agents : list Ref)
  (env : EnvironmentParameters) (sched : ScheduleParameters)
  (vis : VisualizationParameters) (v : PyValue)
  (preset : PresetValidationParameters) (w : World) :
  2 <= length agents ->
  (isinstance_list v = true -> len v = length agents) ->
  exists g w',
    __init__ agents env sched vis v preset w = (Ok g, w')
    /\ visualization_parameters (super g) = vis
    /\ (forall tp out w'',
          _create_graph g tp w' = (out, w'') -> same_filters w' w'')
    /\ forall r, In r agents ->
         visualization (heap w' r) = Some (visualization_parameters (super g))
         /\ (input_filter (heap w r) = None ->
             input_filter (heap w' r) = Some (default_input_filter env))
         /\ (output_filter (heap w r) = None ->
             output_filter (heap w' r) = Some (default_output_filter env))
         /\ (forall f, input_filter (heap w r) = Some f ->
                       input_filter (heap w' r) = Some f)
         /\ (forall f, output_filter (heap w r) = Some f ->
                       output_filter (heap w' r) = Some f)
         /\ input_filter (heap w' r) <> None
         /\ output_filter (heap w' r) <> None.
Proof.
  intros Hn Hvalid. rewrite init_unfold.
  destruct (steps_block agents env sched vis preset v w)
    as [(Hl & Hlen & _) | (self & Hok & _ & Hsuper & Henv & _)].
  - elim Hlen. auto.
  - rewrite Hok.
    destruct (fill_loop self agents w) as (w' & Hfill & _ & _ & Hheap).
    rewrite Hfill. apply Nat.ltb_ge in Hn. rewrite Hn.
    exists self, w'. rewrite Hsuper. simpl.
    split; [reflexivity|]. split; [reflexivity|].
    split; [intros tp out w'' Hrun; exact (create_graph_frame _ _ _ _ _ Hrun)|].
    intros r Hin. rewrite Hheap, (existsb_eqb_In r agents Hin).
    rewrite Hsuper, Henv. simpl.
    repeat split; try discriminate.
    + intros H. rewrite H. reflexivity.
    + intros H. rewrite H. reflexivity.
    + intros f H. rewrite H. reflexivity.
    + intros f H. rewrite H. reflexivity.
Qed.

(** C1, at a valid two-level description whose duration is the list
    [[EnvironmentSteps(5), EnvironmentSteps(7)]]: the constructor accepts
    it, and [_create_graph] then raises [AttributeError] instead of handing
    [EnvironmentSteps(7)] to the level manager of level 1. *)
Theorem per_level_list_never_used :
  fst (__init__ [0; 1] sample_env sample_schedule sample_vis
         (PyList [steps 5; steps 7]) sample_preset sample_world)
  = Ok (initial_self [0; 1] sample_env sample_schedule sample_vis
          sample_preset)
  /\ fst (construct [0; 1] sample_env sample_schedule sample_vis
            (PyList [steps 5; steps 7]) sample_preset sample_task sample_world)
     = Raise (AttributeError "consecutive_steps_to_run_non_top_levels").
Proof.
  split; reflexivity.
Qed.

(** C5. A returned construction has one level manager per agent parameter
    object, top level first: the manager at position [i] is named
    [level_i] and wraps the agent built from the [i]-th object; each
    manager's lower environment is the manager that follows it in the
    list, and the last one's is the environment itself. *)
Theorem level_managers_chain (params : list Ref) (env : EnvironmentParameters)
  (sched : ScheduleParameters) (vis : VisualizationParameters) (v : PyValue)
  (preset : PresetValidationParameters) (tp : TaskParameters) (w w' : World)
  (lms : list LevelManager) (envs : list Environment) :
  construct params env sched vis v preset tp w = (Ok (lms, envs), w') ->
  2 <= length params
  /\ length lms = length params
  /\ map level_manager_name lms
     = map (format_index "level_") (seq 0 (length params))
  /\ map (fun lm => agent_params_ref (agents lm)) lms = params
  /\ exists e,
       envs = [e]
       /\ map environment lms = tl (map Below lms ++ [TrueEnv e]).
Proof.
  intros Hrun. apply construct_ok in Hrun.
  destruct Hrun as (g & e & Hn & _ & _ & Henvs & Hall & Hlinked).
  split; [exact Hn|]. split; [|split; [|split]].
  - apply Forall2_length in Hall. rewrite <- Hall.
    unfold enumerate. rewrite length_combine, length_seq. lia.
  - rewrite <- (map_fst_enumerate_from params 0), map_map.
    apply Forall2_map_eq. fold (enumerate params).
    eapply Forall2_weaken; [|exact Hall].
    intros item lm (Hname & _). exact Hname.
  - transitivity (map snd (enumerate params));
      [|apply map_snd_enumerate_from].
    apply Forall2_map_eq.
    eapply Forall2_weaken; [|exact Hall].
    intros item lm (_ & Hr & _). exact Hr.
  - exists e. split; [exact Henvs|].
    apply linked_environments. exact Hlinked.
Qed.

(** C7. In a returned construction the manager at position [i] got
    [should_reset_agent_state_after_time_limit_passes = (0 < i)]: false for
    level 0, true for every other level. *)
Theorem reset_flag_per_level (params : list Ref) (env : EnvironmentParameters)
  (sched : ScheduleParameters) (vis : VisualizationParameters) (v : PyValue)
  (preset : PresetValidationParameters) (tp : TaskParameters) (w w' : World)
  (lms : list LevelManager) (envs : list Environment) :
  construct params env sched vis v preset tp w = (Ok (lms, envs), w') ->
  map should_reset_agent_state_after_time_limit_passes lms
  = map (fun idx => 0 <? idx) (seq 0 (length params)).
Proof.
  intros Hrun. apply construct_ok in Hrun.
  destruct Hrun as (g & e & _ & _ & _ & _ & Hall & _).
  rewrite <- (map_fst_enumerate_from params 0), map_map.
  apply Forall2_map_eq. fold (enumerate params).
  eapply Forall2_weaken; [|exact Hall].
  intros item lm (_ & _ & _ & Hflag & _). exact Hflag.
Qed.


(** C10, amended.  With at least two levels and a duration list of
    matching length the constructor returns, the attribute
    [consecutive_steps_to_run_non_top_levels] of the object it returns is
    unset, and [_create_graph] on that object raises [AttributeError]. *)
Theorem matching_list_leaves_budget_unset (params : list Ref)
  (env : EnvironmentParameters) (sched : ScheduleParameters)
  (vis : VisualizationParameters) (items : list PyValue)
  (preset : PresetValidationParameters) (tp : TaskParameters) (w : World) :
  length items = length params ->
  2 <= length params ->
  exists g w1 w2,
    __init__ params env sched vis (PyList items) preset w = (Ok g, w1)
    /\ consecutive_steps_to_run_non_top_levels g = None
    /\ _create_graph g tp w1
       = (Raise (AttributeError "consecutive_steps_to_run_non_top_levels"),
          w2).
Proof.
  intros Hlen Hn.
  destruct (__init__ params env sched vis (PyList items) preset w)
    as [[g|e] w1] eqn:Hinit.
  - destruct (init_ok _ _ _ _ _ _ _ _ _ Hinit)
      as (_ & Hag & _ & _ & _ & Hsteps).
    simpl in Hsteps.
    destruct (create_graph_unset g tp w1 Hsteps) as (w2 & Hrun);
      [rewrite Hag; exact Hn|].
    exists g, w1, w2. auto.
  - exfalso. rewrite init_unfold in Hinit.
    destruct (steps_block params env sched vis preset (PyList items) w)
      as [(_ & Hne & _) | (self & Hok & _)].
    + simpl in Hne. contradiction.
    + rewrite Hok in Hinit.
      destruct (fill_loop self params w) as (w2 & Hfill & _).
      rewrite Hfill in Hinit. apply Nat.ltb_ge in Hn. rewrite Hn in Hinit.
      discriminate.
Qed.

(* ------------------------------------------------------------------ *)
(** ** The statements at sample inputs *)


(** C10 as first stated fails on a single level with a one-entry list:
    the lengths agree and yet the constructor does not return. *)
Lemma matching_list_single_level_rejected :
  length [steps 5] = length [0]
  /\ fst (__init__ [0] sample_env sample_schedule sample_vis
            (PyList [steps 5]) sample_preset sample_world)
     = Raise (ValueError too_few_levels_message)
  /\ ~ (exists g w1,
          __init__ [0] sample_env sample_schedule sample_vis
            (PyList [steps 5]) sample_preset sample_world = (Ok g, w1)).
Proof.
  split; [reflexivity|]. split; [reflexivity|].
  intros (g & w1 & H). apply (f_equal fst) in H. discriminate H.
Qed.

Lemma too_few_levels_rejected_witness :
  length [0] < 2
  /\ exists msg w',
       __init__ [0] sample_env sample_schedule sample_vis (steps 5)
         sample_preset sample_world = (Raise (ValueError msg), w').
Proof.
  split; [simpl; lia|].
  apply (too_few_levels_rejected [0] sample_env sample_schedule sample_vis
           (steps 5) sample_preset sample_world).
  simpl; lia.
Defined.


Lemma level_managers_chain_witness :
  construct [0; 1; 0] sample_env sample_schedule sample_vis (steps 5)
    sample_preset sample_task sample_world
  = (Ok (sample_levels, sample_envs), snd sample_run)
  /\ (2 <= length [0; 1; 0]
      /\ length sample_levels = length [0; 1; 0]
      /\ map level_manager_name sample_levels
         = ["level_0"; "level_1"; "level_2"]
      /\ map (fun lm => agent_params_ref (agents lm)) sample_levels
         = [0; 1; 0]
      /\ exists e,
           sample_envs = [e]
           /\ map environment sample_levels
              = tl (map Below sample_levels ++ [TrueEnv e])).
Proof.
  split; [vm_compute; reflexivity|].
  apply (level_managers_chain [0; 1; 0] sample_env sample_schedule sample_vis
           (steps 5) sample_preset sample_task sample_world (snd sample_run)
           sample_levels sample_envs).
  vm_compute; reflexivity.
Defined.

Lemma defaults_filled_witness :
  2 <= length [0; 1]
  /\ len (PyList [steps 5; steps 7]) = length [0; 1]
  /\ exists g w',
       __init__ [0; 1] sample_env sample_schedule sample_vis
         (PyList [steps 5; steps 7]) sample_preset sample_world = (Ok g, w')
       /\ visualization_parameters (super g) = sample_vis
       /\ (forall tp out w'',
             _create_graph g tp w' = (out, w'') -> same_filters w' w'')
       /\ forall r, In r [0; 1] ->
            visualization (heap w' r)
            = Some (visualization_parameters (super g))
            /\ (input_filter (heap sample_world r) = None ->
                input_filter (heap w' r)
                = Some (default_input_filter sample_env))
            /\ (output_filter (heap sample_world r) = None ->
                output_filter (heap w' r)
                = Some (default_output_filter sample_env))
            /\ (forall f, input_filter (heap sample_world r) = Some f ->
                          input_filter (heap w' r) = Some f)
            /\ (forall f, output_filter (heap sample_world r) = Some f ->
                          output_filter (heap w' r) = Some f)
            /\ input_filter (heap w' r) <> None
            /\ output_filter (heap w' r) <> None.
Proof.
  split; [simpl; lia|]. split; [reflexivity|].
  apply (defaults_filled [0; 1] sample_env sample_schedule sample_vis
           (PyList [steps 5; steps 7]) sample_preset sample_world).
  - simpl; lia.
  - intros _; reflexivity.
Defined.

Lemma reset_flag_per_level_witness :
  construct [0; 1; 0] sample_env sample_schedule sample_vis (steps 5)
    sample_preset sample_task sample_world
  = (Ok (sample_levels, sample_envs), snd sample_run)
  /\ map should_reset_agent_state_after_time_limit_passes sample_levels
     = [false; true; true].
Proof.
  split; [vm_compute; reflexivity|].
  apply (reset_flag_per_level [0; 1; 0] sample_env sample_schedule sample_vis
           (steps 5) sample_preset sample_task sample_world (snd sample_run)
           sample_levels sample_envs).
  vm_compute; reflexivity.
Defined.


Lemma other_duration_ignored_witness :
  isinstance_list PyNone = false
  /\ isinstance_EnvironmentSteps PyNone = false
  /\ init_steps_to_run
       (initial_self [0; 1] sample_env sample_schedule sample_vis sample_preset)
       PyNone sample_world
     = (Ok (initial_self [0; 1] sample_env sample_schedule sample_vis
              sample_preset), sample_world)
  /\ consecutive_steps_to_run_non_top_levels
       (initial_self [0; 1] sample_env sample_schedule sample_vis sample_preset)
     = None
  /\ exists w',
       __init__ [0; 1] sample_env sample_schedule sample_vis PyNone
         sample_preset sample_world
       = (if length [0; 1] <? 2
          then Raise (ValueError too_few_levels_message)
          else Ok (initial_self [0; 1] sample_env sample_schedule sample_vis
                     sample_preset), w').
Proof.
  split; [reflexivity|]. split; [reflexivity|].
  apply (other_duration_ignored [0; 1] sample_env sample_schedule sample_vis
           PyNone sample_preset sample_world); reflexivity.
Defined.

Lemma matching_list_leaves_budget_unset_witness :
  length [steps 5; steps 7] = length [0; 1]
  /\ 2 <= length [0; 1]
  /\ exists g w1 w2,
       __init__ [0; 1] sample_env sample_schedule sample_vis
         (PyList [steps 5; steps 7]) sample_preset sample_world = (Ok g, w1)
       /\ consecutive_steps_to_run_non_top_levels g = None
       /\ _create_graph g sample_task w1
          = (Raise (AttributeError "consecutive_steps_to_run_non_top_levels"),
             w2).
Proof.
  split; [reflexivity|]. split; [simpl; lia|].
  apply (matching_list_leaves_budget_unset [0; 1] sample_env sample_schedule
           sample_vis [steps 5; steps 7] sample_preset sample_task
           sample_world).
  - reflexivity.
  - simpl; lia.
Defined.

(* ------------------------------------------------------------------ *)
(** ** Further properties of the constructor *)

(** The loop body, with the exact instantiations it asks for. *)
Lemma fill_body_trace (self : HACGraphManager) (params : list Ref) (r : Ref)
  (w : World) :
  exists w1,
    init_fill_defaults self (r :: params) w
    = init_fill_defaults self params w1
    /\ trace w1
       = trace w
         ++ (if is_None (input_filter (heap w r))
             then [NewDefaultInputFilter] else [])
         ++ (if is_None (output_filter (heap w r))
             then [NewDefaultOutputFilter] else [])
    /\ forall r', heap w1 r'
                  = if r' =? r
                    then filled (visualization_parameters (super self))
                           (env_params self) (heap w r)
                    else heap w r'.
Proof.
  unfold init_fill_defaults, call_default_input_filter,
    call_default_output_filter.
  simpl for_each. run. rewrite Nat.eqb_refl. simpl.
  destruct (input_filter (heap w r)) eqn:Ein; simpl;
    rewrite ?Nat.eqb_refl; simpl; rewrite ?Nat.eqb_refl; simpl;
    destruct (output_filter (heap w r)) eqn:Eout; simpl;
    (eexists; split; [reflexivity | simpl; split]);
    try (rewrite ?app_nil_r, <- ?app_assoc; reflexivity).
  all: intros r'; destruct (r' =? r) eqn:Er; simpl;
    [ rewrite ?Nat.eqb_refl; simpl;
      unfold filled, set_visualization, set_input_filter,
        set_output_filter; simpl;
      rewrite ?Ein, ?Eout; reflexivity
    | reflexivity ].
Qed.

(** Objects that come with both filters make the loop instantiate
    nothing. *)
Lemma fill_loop_explicit (self : HACGraphManager) (params : list Ref) :
  forall w,
    (forall r, In r params ->
               input_filter (heap w r) <> None
               /\ output_filter (heap w r) <> None) ->
    trace (snd (init_fill_defaults self params w)) = trace w.
Proof.
  induction params as [|a params IH]; intros w Hset; [reflexivity|].
  destruct (fill_body_trace self params a w) as (w1 & -> & Htr & Hheap).
  rewrite IH.
  - rewrite Htr. destruct (Hset a (or_introl eq_refl)) as (Hi & Ho).
    destruct (input_filter (heap w a)); [|contradiction].
    destruct (output_filter (heap w a)); [|contradiction].
    simpl. apply app_nil_r.
  - intros r Hin. rewrite Hheap.
    destruct (r =? a); [split; discriminate|].
    apply Hset. right. exact Hin.
Qed.

Lemma existsb_eqb_absent (r : Ref) (l : list Ref) :
  ~ In r l -> existsb (Nat.eqb r) l = false.
Proof.
  intros H. destruct (existsb (Nat.eqb r) l) eqn:E; [|reflexivity].
  apply existsb_exists in E. destruct E as (x & Hx & Hrx).
  apply Nat.eqb_eq in Hrx. subst x. contradiction.
Qed.

(** The world a constructor call leaves, whatever its outcome: either the
    world it started in, or that world with every listed object [filled]
    and nothing but default filters instantiated. *)
Lemma init_world (params : list Ref) (env : EnvironmentParameters)
  (sched : ScheduleParameters) (vis : VisualizationParameters) (v : PyValue)
  (preset : PresetValidationParameters) (w w' : World)
  (out : Outcome HACGraphManager) :
  __init__ params env sched vis v preset w = (out, w') ->
  (out = Raise (ValueError mismatch_message) /\ w' = w)
  \/ (next_obj w' = next_obj w
      /\ (exists evs, trace w' = trace w ++ evs
                      /\ forallb is_default_filter_event evs = true)
      /\ (forall r, heap w' r
                    = if existsb (Nat.eqb r) params
                      then filled vis env (heap w r)
                      else heap w r)
      /\ out <> Raise (ValueError mismatch_message)).
Proof.
  rewrite init_unfold.
  destruct (steps_block params env sched vis preset v w)
    as [(_ & _ & Hraise) | (self & Hok & _ & Hsuper & Henv & _)].
  - rewrite Hraise. intros H. inversion H. left. split; reflexivity.
  - rewrite Hok.
    destruct (fill_loop self params w) as (w2 & Hfill & Hobj & Htr & Hheap).
    rewrite Hfill, Hsuper, Henv in *. simpl in Hheap.
    destruct (length params <? 2); intros H; inversion H; subst;
      right; repeat split; auto; discriminate.
Qed.

(** X1. The outcome of the constructor in full.  A list of another length
    raises the mismatch error, also when there are fewer than two levels;
    otherwise fewer than two levels raise the too-few-levels error;
    otherwise the constructor returns [self] with the given lists and
    parameters, [should_test_current_sub_goal] unset, and the duration stored
    exactly when it is an [EnvironmentSteps]. *)
Theorem constructor_outcome (params : list Ref) (env : EnvironmentParameters)
  (sched : ScheduleParameters) (vis : VisualizationParameters) (v : PyValue)
  (preset : PresetValidationParameters) (w : World) :
  fst (__init__ params env sched vis v preset w)
  = if isinstance_list v && negb (len v =? length params)
    then Raise (ValueError mismatch_message)
    else if length params <? 2
         then Raise (ValueError too_few_levels_message)
         else Ok (returned_self params env sched vis v preset).
Proof.
  rewrite init_unfold. unfold init_steps_to_run, returned_self. simpl.
  destruct (isinstance_list v); simpl.
  - destruct (negb (len v =? length params)); simpl; [reflexivity|].
    destruct (fill_loop (initial_self params env sched vis preset) params w)
      as (w' & -> & _).
    destruct (length params <? 2); reflexivity.
  - destruct (isinstance_EnvironmentSteps v); simpl.
    + destruct (fill_loop
                  (set_consecutive_steps_to_run_non_top_levels v
                     (initial_self params env sched vis preset)) params w)
        as (w' & -> & _).
      destruct (length params <? 2); reflexivity.
    + destruct (fill_loop (initial_self params env sched vis preset) params w)
        as (w' & -> & _).
      destruct (length params <? 2); reflexivity.
Qed.

(** X2. Whatever its outcome, the constructor allocates no object,
    instantiates nothing but default filters, leaves every object that is
    not listed as it was, and in every object leaves the path, the task
    parameters, the name and the two level flags as they were. *)
Theorem constructor_frame (params : list Ref) (env : EnvironmentParameters)
  (sched : ScheduleParameters) (vis : VisualizationParameters) (v : PyValue)
  (preset : PresetValidationParameters) (w w' : World)
  (out : Outcome HACGraphManager) :
  __init__ params env sched vis v preset w = (out, w') ->
  next_obj w' = next_obj w
  /\ (exists evs, trace w' = trace w ++ evs
                  /\ forallb is_default_filter_event evs = true)
  /\ (forall r, ~ In r params -> heap w' r = heap w r)
  /\ forall r,
       path (heap w' r) = path (heap w r)
       /\ task_parameters (heap w' r) = task_parameters (heap w r)
       /\ name (heap w' r) = name (heap w r)
       /\ is_a_highest_level_agent (heap w' r)
          = is_a_highest_level_agent (heap w r)
       /\ is_a_lowest_level_agent (heap w' r)
          = is_a_lowest_level_agent (heap w r).
Proof.
  intros Hrun. apply init_world in Hrun.
  destruct Hrun as [(_ & ->) | (Hobj & Htr & Hheap & _)].
  - split; [reflexivity|]. split; [|split; [reflexivity|]].
    + exists []. rewrite app_nil_r. split; reflexivity.
    + intros r. repeat split.
  - split; [exact Hobj|]. split; [exact Htr|]. split.
    + intros r Hr. rewrite Hheap, (existsb_eqb_absent r params Hr).
      reflexivity.
    + intros r. rewrite Hheap.
      destruct (existsb (Nat.eqb r) params); repeat split.
Qed.

(** X3. When every listed object comes with both filters set, the
    constructor instantiates no default filter at all. *)
Theorem explicit_filters_instantiate_nothing (params : list Ref)
  (env : EnvironmentParameters) (sched : ScheduleParameters)
  (vis : VisualizationParameters) (v : PyValue)
  (preset : PresetValidationParameters) (w : World) :
  (forall r, In r params ->
             input_filter (heap w r) <> None
             /\ output_filter (heap w r) <> None) ->
  trace (snd (__init__ params env sched vis v preset w)) = trace w.
Proof.
  intros Hset. rewrite init_unfold.
  destruct (steps_block params env sched vis preset v w)
    as [(_ & _ & Hraise) | (self & Hok & _)].
  - rewrite Hraise. reflexivity.
  - rewrite Hok.
    pose proof (fill_loop_explicit self params w Hset) as Htr.
    destruct (init_fill_defaults self params w) as [[[]|e] w2];
      simpl in Htr; [destruct (length params <? 2)|]; exact Htr.
Qed.

(** X4. Agent parameter objects that one constructor call has prepared
    keep their filters through a second constructor call, whatever
    environment and list the second call is given; only the visualization
    of the objects the second call lists is replaced. *)
Theorem second_constructor_keeps_filters (params1 params2 : list Ref)
  (env1 env2 : EnvironmentParameters) (sched1 sched2 : ScheduleParameters)
  (vis1 vis2 : VisualizationParameters) (v1 v2 : PyValue)
  (preset1 preset2 : PresetValidationParameters) (w w1 w2 : World)
  (g1 g2 : HACGraphManager) (r : Ref) :
  __init__ params1 env1 sched1 vis1 v1 preset1 w = (Ok g1, w1) ->
  __init__ params2 env2 sched2 vis2 v2 preset2 w1 = (Ok g2, w2) ->
  In r params1 ->
  input_filter (heap w2 r)
  = Some (match input_filter (heap w r) with
          | Some f => f
          | None => default_input_filter env1
          end)
  /\ output_filter (heap w2 r)
     = Some (match output_filter (heap w r) with
             | Some f => f
             | None => default_output_filter env1
             end)
  /\ visualization (heap w2 r)
     = Some (if existsb (Nat.eqb r) params2 then vis2 else vis1).
Proof.
  intros H1 H2 Hin.
  assert (Hfirst : heap w1 r = filled vis1 env1 (heap w r)).
  { destruct (init_world _ _ _ _ _ _ _ _ _ H1)
      as [(Hout & _) | (_ & _ & Hheap & _)]; [discriminate|].
    rewrite Hheap, (existsb_eqb_In r params1 Hin). reflexivity. }
  destruct (init_world _ _ _ _ _ _ _ _ _ H2)
    as [(Hout & _) | (_ & _ & Hheap & _)]; [discriminate|].
  - rewrite Hheap, Hfirst.
    destruct (existsb (Nat.eqb r) params2); repeat split.
Qed.

(* ------------------------------------------------------------------ *)
(** ** Further properties of the graph *)

Lemma kept_config_refl (p : AgentParameters) : kept_config p p.
Proof. repeat split. Qed.

Lemma kept_config_trans (p q s : AgentParameters) :
  kept_config p q -> kept_config q s -> kept_config p s.
Proof.
  intros (H1 & H2 & H3 & H4 & H5) (K1 & K2 & K3 & K4 & K5).
  repeat split; congruence.
Qed.

Lemma kept_config_prepared (n idx : nat) (p : AgentParameters) :
  kept_config (prepared n idx p) p.
Proof. repeat split. Qed.

Section GraphTurns.

Variable self : HACGraphManager.
Variable env : Environment.

(** A turn of the loop whose step budget is available, in full. *)
Lemma build_turn (idx : nat) (r : Ref) (rest : list (nat * Ref))
  (acc : list LevelManager) (cur : LowerEnv) (w : World) (limit : PyValue) :
  (if idx =? 0
   then Some (PyEnvironmentSteps {| num_steps := 1 |})
   else consecutive_steps_to_run_non_top_levels self) = Some limit ->
  exists w3,
    build_levels self env ((idx, r) :: rest) acc cur w
    = build_levels self env rest (built self env idx r cur limit w :: acc)
        (Below (built self env idx r cur limit w)) w3
    /\ next_obj w3 = S (S (next_obj w))
    /\ trace w3
       = trace w ++ [NewAgent (next_obj w) r; NewLevelManager (S (next_obj w))]
    /\ forall r', heap w3 r'
                  = if r' =? r
                    then prepared (length (agents_params self)) idx (heap w r)
                    else heap w r'.
Proof.
  intros Hlimit. unfold built, prepared. simpl build_levels.
  unfold new_agent, new_level_manager, getattr_consecutive_steps. run.
  rewrite !Nat.eqb_refl.
  destruct (idx =? 0); simpl in *;
    [inversion Hlimit; subst | rewrite Hlimit]; simpl;
    (eexists; split; [reflexivity|]; simpl;
     split; [reflexivity|]; split; [rewrite <- app_assoc; reflexivity|];
     intros r'; destruct (r' =? r) eqn:Er; simpl; reflexivity).
Qed.

(** The turn on which the unset attribute is read: the agent of that level
    has been instantiated, its level manager has not. *)
Lemma build_turn_unset (idx : nat) (r : Ref) (rest : list (nat * Ref))
  (acc : list LevelManager) (cur : LowerEnv) (w : World) :
  idx <> 0 ->
  consecutive_steps_to_run_non_top_levels self = None ->
  exists w2,
    build_levels self env ((idx, r) :: rest) acc cur w
    = (Raise (AttributeError "consecutive_steps_to_run_non_top_levels"), w2)
    /\ next_obj w2 = S (next_obj w)
    /\ trace w2 = trace w ++ [NewAgent (next_obj w) r]
    /\ forall r', heap w2 r'
                  = if r' =? r
                    then prepared (length (agents_params self)) idx (heap w r)
                    else heap w r'.
Proof.
  intros Hidx Hnone. apply Nat.eqb_neq in Hidx. unfold prepared.
  simpl build_levels.
  unfold new_agent, new_level_manager, getattr_consecutive_steps. run.
  rewrite !Nat.eqb_refl, Hidx, Hnone. simpl.
  eexists. split; [reflexivity|]. simpl.
  split; [reflexivity|]. split; [reflexivity|].
  intros r'. destruct (r' =? r) eqn:Er; simpl; reflexivity.
Qed.

(** A completed loop, in full: the identities it used, what it
    instantiated and in which order, what it left in every object, and what
    each agent was instantiated from. *)
Lemma build_levels_exact (items : list (nat * Ref)) :
  forall acc cur w lms w',
    build_levels self env items acc cur w = (Ok lms, w') ->
    next_obj w' = next_obj w + 2 * length items
    /\ trace w' = trace w ++ level_events (next_obj w) items
    /\ (forall r, heap w' r
                  = relabelled (length (agents_params self)) items r
                      (heap w r))
    /\ exists new,
         lms = new ++ acc
         /\ Forall2 (fun item lm =>
                       saw_level (length (agents_params self))
                         (heap w (snd item)) item lm)
              (rev items) new.
Proof.
  induction items as [|[idx r] rest IH]; intros acc cur w lms w' Hrun.
  - inversion Hrun; subst. simpl. rewrite Nat.add_0_r, app_nil_r.
    repeat split. exists []. split; [reflexivity|constructor].
  - destruct (if idx =? 0
              then Some (PyEnvironmentSteps {| num_steps := 1 |})
              else consecutive_steps_to_run_non_top_levels self)
      as [limit|] eqn:Elim.
    + destruct (build_turn idx r rest acc cur w limit Elim)
        as (w3 & Hstep & Hobj & Htr & Hheap).
      rewrite Hstep in Hrun. apply IH in Hrun.
      destruct Hrun as (Hobj' & Htr' & Hheap' & new & Hlms & Hall).
      split; [simpl length; lia|]. split; [|split].
      * rewrite Htr', Htr, Hobj, <- app_assoc. reflexivity.
      * intros r'. rewrite Hheap', Hheap. unfold relabelled. simpl.
        destruct (r' =? r) eqn:Er; [|reflexivity].
        apply Nat.eqb_eq in Er. subst r'. reflexivity.
      * exists (new ++ [built self env idx r cur limit w]).
        split; [rewrite <- app_assoc; exact Hlms|].
        simpl rev. apply Forall2_app.
        -- eapply Forall2_weaken; [|exact Hall].
           intros item lm (Hn & Hh & Hl & Hk).
           split; [exact Hn|]. split; [exact Hh|]. split; [exact Hl|].
           eapply kept_config_trans; [exact Hk|].
           rewrite Hheap. destruct (snd item =? r) eqn:Er;
             [|apply kept_config_refl].
           apply Nat.eqb_eq in Er. rewrite Er. apply kept_config_prepared.
        -- constructor; [|constructor].
           unfold saw_level, built. simpl.
           split; [reflexivity|]. split; [reflexivity|].
           split; [reflexivity|]. apply kept_config_prepared.
    + exfalso. destruct (idx =? 0) eqn:Eidx; [discriminate|].
      apply Nat.eqb_neq in Eidx.
      destruct (build_turn_unset idx r rest acc cur w Eidx Elim)
        as (w2 & Hstep & _).
      rewrite Hstep in Hrun. discriminate.
Qed.

End GraphTurns.

(** The loop of lines 77-78, with what it leaves in every object. *)
Lemma task_loop_heap (tp : TaskParameters) (l : list Ref) :
  forall w, exists w',
    for_each l (fun r => store r (set_task_parameters (Some tp))) w
    = (Ok tt, w')
    /\ next_obj w' = next_obj w /\ trace w' = trace w
    /\ forall r, heap w' r
                 = if existsb (Nat.eqb r) l
                   then set_task_parameters (Some tp) (heap w r)
                   else heap w r.
Proof.
  induction l as [|a l IH]; intros w; simpl.
  - exists w. repeat split; auto.
  - run.
    destruct (IH {| heap := fun r' =>
                      if r' =? a
                      then set_task_parameters (Some tp) (heap w a)
                      else heap w r';
                    next_obj := next_obj w; trace := trace w |})
      as (w' & Hrun & Hobj & Htr & Hheap).
    exists w'. split; [exact Hrun|]. split; [exact Hobj|].
    split; [exact Htr|].
    intros r. rewrite Hheap. simpl.
    destruct (r =? a) eqn:Er; simpl; [|reflexivity].
    apply Nat.eqb_eq in Er. subst r.
    destruct (existsb (Nat.eqb a) l); reflexivity.
Qed.

(** [_create_graph] up to its loop over the levels, in full. *)
Lemma create_graph_start (self : HACGraphManager) (tp : TaskParameters)
  (w : World) :
  exists w1,
    _create_graph self tp w
    = match build_levels self (created_env self w)
              (rev (enumerate (agents_params self))) []
              (TrueEnv (created_env self w)) w1 with
      | (Ok lms, w') => (Ok (lms, [created_env self w]), w')
      | (Raise e, w') => (Raise e, w')
      end
    /\ next_obj w1 = S (next_obj w)
    /\ trace w1 = trace w ++ [NewEnvironment (next_obj w)]
    /\ forall r, heap w1 r
                 = if existsb (Nat.eqb r) (agents_params self)
                   then set_task_parameters (Some tp) (heap w r)
                   else heap w r.
Proof.
  unfold _create_graph, new_environment, created_env.
  unfold bind, ret, log, alloc. simpl.
  match goal with
  | |- context [for_each ?l ?body ?w0] =>
      destruct (task_loop_heap tp l w0) as (w1 & Hloop & Hobj & Htr & Hheap)
  end.
  rewrite Hloop. exists w1. split; [|auto].
  destruct (build_levels _ _ _ _ _ w1) as [[lms|e] w']; reflexivity.
Qed.

Lemma enumerate_snoc {A} (l : list A) (x : A) :
  rev (enumerate (l ++ [x])) = (length l, x) :: rev (enumerate l).
Proof.
  unfold enumerate. rewrite enumerate_from_snoc, rev_app_distr. reflexivity.
Qed.


Lemma In_enumerate {A} (l : list A) (item : nat * A) :
  In item (enumerate l) -> In (snd item) l.
Proof.
  destruct item as [idx x]. intros H. exact (in_combine_r _ _ _ _ H).
Qed.

Lemma Forall2_weaken_In {A B} (P Q : A -> B -> Prop) (l : list A)
  (l' : list B) :
  (forall a b, In a l -> P a b -> Q a b) -> Forall2 P l l' -> Forall2 Q l l'.
Proof.
  intros HPQ H. induction H; constructor.
  - apply HPQ; [left; reflexivity | assumption].
  - apply IHForall2. intros a b Ha. apply HPQ. right. exact Ha.
Qed.

Lemma relabelled_kept (n : nat) (items : list (nat * Ref)) (r : Ref) :
  forall p, kept_config (relabelled n items r p) p.
Proof.
  unfold relabelled. induction items as [|[idx r0] rest IH]; intros p; simpl.
  - apply kept_config_refl.
  - destruct (r =? r0).
    + eapply kept_config_trans; [apply IH | apply kept_config_prepared].
    + apply IH.
Qed.


(** In the loop order (last level first) the last turn that names an
    object is the one for its first position in the list: that position
    decides the name and the flags the object is left with. *)
Lemma relabelled_first (n : nat) (r : Ref) (upper lower : list Ref) :
  ~ In r upper ->
  forall k p,
    exists q,
      relabelled n
        (rev (combine (seq k (length (upper ++ r :: lower)))
                (upper ++ r :: lower))) r p
      = prepared n (k + length upper) q.
Proof.
  unfold relabelled.
  induction upper as [|a upper IH]; intros Hr k p; simpl.
  - rewrite fold_left_app. simpl. rewrite Nat.eqb_refl, Nat.add_0_r. eauto.
  - rewrite fold_left_app. simpl.
    destruct (r =? a) eqn:Er.
    + apply Nat.eqb_eq in Er. subst a. elim Hr. left. reflexivity.
    + destruct (IH (fun H => Hr (or_intror H)) (S k) p) as (q & Hq).
      exists q. replace (k + S (length upper)) with (S k + length upper)
        by lia. exact Hq.
Qed.

Lemma saw_level_exact (n : nat) (p : AgentParameters) (item : nat * Ref)
  (lm : LevelManager) :
  saw_level n p item lm ->
  agent_params_seen (agents lm) = prepared n (fst item) p.
Proof.
  intros (Hn & Hh & Hl & Hp & Hv & Hi & Ho & Ht).
  destruct (agent_params_seen (agents lm)), p. simpl in *. subst.
  reflexivity.
Qed.

(** A returned construction has a scalar duration, stored in [self]. *)
Lemma construct_ok_scalar (params : list Ref) (env : EnvironmentParameters)
  (sched : ScheduleParameters) (vis : VisualizationParameters) (v : PyValue)
  (preset : PresetValidationParameters) (tp : TaskParameters) (w w' : World)
  (lms : list LevelManager) (envs : list Environment) :
  construct params env sched vis v preset tp w = (Ok (lms, envs), w') ->
  2 <= length params /\ isinstance_EnvironmentSteps v = true.
Proof.
  intros Hrun. apply construct_ok in Hrun.
  destruct Hrun as (g & e & Hn & Hsteps & _ & _ & Hall & _).
  split; [exact Hn|].
  destruct params as [|a [|b rest]]; simpl in Hn; try lia.
  inversion Hall as [|x lm l l' _ Hrest]; subst.
  inversion Hrest as [|x' lm' l0 l0' Hb _]; subst.
  destruct Hb as (_ & _ & _ & _ & Hb). simpl in Hb.
  rewrite Hb in Hsteps.
  destruct (isinstance_list v); [discriminate|].
  destruct (isinstance_EnvironmentSteps v); [reflexivity|discriminate].
Qed.

(** X6. Construction (the constructor, then [_create_graph]) returns
    exactly when there are at least two levels and the duration is an
    [EnvironmentSteps]; with a list, [None] or any other value it raises. *)
Theorem construct_returns_iff (params : list Ref)
  (env : EnvironmentParameters) (sched : ScheduleParameters)
  (vis : VisualizationParameters) (v : PyValue)
  (preset : PresetValidationParameters) (tp : TaskParameters) (w : World) :
  (exists lms envs w',
     construct params env sched vis v preset tp w = (Ok (lms, envs), w'))
  <-> (2 <= length params /\ isinstance_EnvironmentSteps v = true).
Proof.
  split.
  - intros (lms & envs & w' & Hrun).
    exact (construct_ok_scalar _ _ _ _ _ _ _ _ _ _ _ Hrun).
  - intros (Hn & Hv). destruct v; try discriminate.
    apply construct_succeeds. exact Hn.
Qed.

(** X11. [_create_graph] on its own returns exactly when the attribute
    [consecutive_steps_to_run_non_top_levels] is set or there is at most one
    level (no level other than level 0 reads the attribute); an empty list
    of levels gives no level manager and the environment. *)
Theorem create_graph_returns_iff (self : HACGraphManager)
  (tp : TaskParameters) (w : World) :
  ((exists lms envs w',
      _create_graph self tp w = (Ok (lms, envs), w'))
   <-> (length (agents_params self) <= 1
        \/ consecutive_steps_to_run_non_top_levels self <> None))
  /\ (agents_params self = [] ->
      fst (_create_graph self tp w) = Ok ([], [created_env self w])).
Proof.
  split; [split|].
  - intros (lms & envs & w' & Hrun).
    destruct (consecutive_steps_to_run_non_top_levels self) eqn:Hattr;
      [right; discriminate|].
    destruct (le_lt_dec (length (agents_params self)) 1) as [Hle|Hgt];
      [left; exact Hle|].
    destruct (create_graph_unset self tp w Hattr Hgt) as (w2 & Hraise).
    rewrite Hraise in Hrun. discriminate.
  - intros Hcase.
    destruct (create_graph_start self tp w) as (w1 & -> & _).
    destruct (consecutive_steps_to_run_non_top_levels self) as [v|] eqn:Hattr.
    + destruct (build_levels_total self (created_env self w) v
                  (rev (enumerate (agents_params self))) Hattr []
                  (TrueEnv (created_env self w)) w1) as (lms & w' & ->).
      eauto.
    + destruct Hcase as [Hle|Hne]; [|contradiction].
      destruct (agents_params self) as [|a [|b rest]]; simpl in Hle;
        try lia.
      * simpl. unfold ret. eauto.
      * unfold enumerate. simpl rev.
        destruct (build_turn self (created_env self w) 0 a [] []
                    (TrueEnv (created_env self w)) w1
                    (PyEnvironmentSteps {| num_steps := 1 |}) eq_refl)
          as (w3 & -> & _).
        simpl. unfold ret. eauto.
  - intros Hnil.
    destruct (create_graph_start self tp w) as (w1 & -> & _).
    rewrite Hnil. reflexivity.
Qed.

(** X7. When the attribute is unset and there are at least two levels,
    [_create_graph] fails half-way: by the time it raises it has
    instantiated the environment and the agent of the bottom level (and no
    level manager), has written the task parameters into every listed
    object and has named the bottom object. *)
Theorem create_graph_fails_half_way (self : HACGraphManager)
  (tp : TaskParameters) (w : World) (upper : list Ref) (bottom : Ref) :
  consecutive_steps_to_run_non_top_levels self = None ->
  agents_params self = upper ++ [bottom] ->
  upper <> [] ->
  exists w',
    _create_graph self tp w
    = (Raise (AttributeError "consecutive_steps_to_run_non_top_levels"), w')
    /\ trace w'
       = trace w ++ [NewEnvironment (next_obj w);
                     NewAgent (S (next_obj w)) bottom]
    /\ next_obj w' = S (S (next_obj w))
    /\ (forall r, In r (agents_params self) ->
                  task_parameters (heap w' r) = Some tp)
    /\ name (heap w' bottom)
       = Some (format_index "agent_" (length upper)).
Proof.
  intros Hattr Hparams Hupper.
  destruct (create_graph_start self tp w)
    as (w1 & -> & Hobj & Htr & Hheap).
  assert (Hitems : rev (enumerate (agents_params self))
                   = (length upper, bottom) :: rev (enumerate upper))
    by (rewrite Hparams; apply enumerate_snoc).
  rewrite Hitems.
  destruct (build_turn_unset self (created_env self w) (length upper) bottom
              (rev (enumerate upper)) [] (TrueEnv (created_env self w)) w1)
    as (w2 & -> & Hobj2 & Htr2 & Hheap2); [|exact Hattr|].
  { destruct upper; [contradiction|discriminate]. }
  exists w2. split; [reflexivity|]. split; [|split; [|split]].
  - rewrite Htr2, Htr, Hobj, <- app_assoc. reflexivity.
  - rewrite Hobj2, Hobj. reflexivity.
  - intros r Hin. rewrite Hheap2.
    assert (Hr : task_parameters (heap w1 r) = Some tp).
    { rewrite Hheap, (existsb_eqb_In r _ Hin). reflexivity. }
    destruct (r =? bottom) eqn:Er; [|exact Hr].
    apply Nat.eqb_eq in Er. subst r. exact Hr.
  - rewrite Hheap2, Nat.eqb_refl. reflexivity.
Qed.


(** X10. What a returning [_create_graph] leaves in a listed object: the
    task parameters, and the name and the two flags of the first level
    that lists it, also when lower levels list the same object. *)
Theorem create_graph_labels_first_level (self : HACGraphManager)
  (tp : TaskParameters) (w w' : World) (lms : list LevelManager)
  (envs : list Environment) (upper lower : list Ref) (r : Ref) :
  _create_graph self tp w = (Ok (lms, envs), w') ->
  agents_params self = upper ++ r :: lower ->
  ~ In r upper ->
  name (heap w' r) = Some (format_index "agent_" (length upper))
  /\ is_a_highest_level_agent (heap w' r) = (length upper =? 0)
  /\ is_a_lowest_level_agent (heap w' r)
     = (Z.of_nat (length upper)
        =? Z.of_nat (length (agents_params self)) - 1)%Z
  /\ task_parameters (heap w' r) = Some tp.
Proof.
  intros Hrun Hparams Hr. revert Hrun.
  destruct (create_graph_start self tp w)
    as (w1 & -> & Hobj & Htr & Hheap).
  destruct (build_levels _ _ _ _ _ w1) as [[lms0|e] w2] eqn:Hrun;
    intros H; inversion H; subst.
  apply build_levels_exact in Hrun.
  destruct Hrun as (_ & _ & Hheap' & _).
  assert (Htask : task_parameters (heap w' r) = Some tp).
  { rewrite Hheap'.
    destruct (relabelled_kept (length (agents_params self))
                (rev (enumerate (agents_params self))) r (heap w1 r))
      as (_ & _ & _ & _ & ->).
    rewrite Hheap, existsb_eqb_In; [reflexivity|].
    rewrite Hparams. apply in_or_app. right. left. reflexivity. }
  rewrite Hheap'. unfold enumerate. rewrite Hparams at 2 3 5 6 8 9.
  destruct (relabelled_first (length (agents_params self)) r upper lower Hr 0
              (heap w1 r)) as (q & ->).
  repeat split. rewrite <- Hheap'. exact Htask.
Qed.

(** X8. In a returned construction the agent of level [i] was instantiated
    from a fully prepared parameter object: the [i]-th object as it was
    before the constructor, with the shared visualization, its missing
    filters filled in, the task parameters, the name [agent_i], and the
    flags of level [i] (highest for level 0, lowest for level N-1), also
    when other levels share the object. *)
Theorem agents_instantiated_from (params : list Ref)
  (env : EnvironmentParameters) (sched : ScheduleParameters)
  (vis : VisualizationParameters) (v : PyValue)
  (preset : PresetValidationParameters) (tp : TaskParameters) (w w' : World)
  (lms : list LevelManager) (envs : list Environment) :
  construct params env sched vis v preset tp w = (Ok (lms, envs), w') ->
  map (fun lm => agent_params_seen (agents lm)) lms
  = map (fun item =>
           prepared (length params) (fst item)
             (set_task_parameters (Some tp)
                (filled vis env (heap w (snd item)))))
      (enumerate params).
Proof.
  rewrite construct_unfold.
  destruct (__init__ params env sched vis v preset w) as [[g|e] w1] eqn:Hinit;
    [|discriminate].
  destruct (init_world _ _ _ _ _ _ _ _ _ Hinit)
    as [(Hout & _) | (_ & _ & Hheap1 & _)]; [discriminate|].
  apply init_ok in Hinit. destruct Hinit as (_ & Hag & _).
  destruct (create_graph_start g tp w1) as (w2 & -> & _ & _ & Hheap2).
  destruct (build_levels _ _ _ _ _ w2) as [[lms0|e] w3] eqn:Hrun;
    intros H; inversion H; subst.
  apply build_levels_exact in Hrun.
  destruct Hrun as (_ & _ & _ & new & -> & Hall).
  rewrite app_nil_r, rev_involutive in *.
  apply Forall2_map_eq.
  eapply Forall2_weaken_In; [|exact Hall].
  intros item lm Hin Hsaw. simpl.
  rewrite (saw_level_exact _ _ _ _ Hsaw).
  apply In_enumerate in Hin.
  rewrite Hheap2, (existsb_eqb_In _ _ Hin), Hheap1, (existsb_eqb_In _ _ Hin).
  reflexivity.
Qed.

(* ------------------------------------------------------------------ *)
(** ** The further properties at sample inputs *)

Lemma constructor_frame_witness :
  __init__ [0; 1] sample_env sample_schedule sample_vis (steps 5)
    sample_preset sample_world
  = (fst first_call, snd first_call)
  /\ (next_obj (snd first_call) = next_obj sample_world
      /\ (exists evs, trace (snd first_call) = trace sample_world ++ evs
                      /\ forallb is_default_filter_event evs = true)
      /\ (forall r, ~ In r [0; 1] ->
                    heap (snd first_call) r = heap sample_world r)
      /\ forall r,
           path (heap (snd first_call) r) = path (heap sample_world r)
           /\ task_parameters (heap (snd first_call) r)
              = task_parameters (heap sample_world r)
           /\ name (heap (snd first_call) r) = name (heap sample_world r)
           /\ is_a_highest_level_agent (heap (snd first_call) r)
              = is_a_highest_level_agent (heap sample_world r)
           /\ is_a_lowest_level_agent (heap (snd first_call) r)
              = is_a_lowest_level_agent (heap sample_world r)).
Proof.
  split; [vm_compute; reflexivity|].
  apply (constructor_frame [0; 1] sample_env sample_schedule sample_vis
           (steps 5) sample_preset sample_world (snd first_call)
           (fst first_call)).
  vm_compute; reflexivity.
Defined.

Lemma explicit_filters_instantiate_nothing_witness :
  (forall r, In r [1; 1] ->
             input_filter (heap sample_world r) <> None
             /\ output_filter (heap sample_world r) <> None)
  /\ trace (snd (__init__ [1; 1] sample_env sample_schedule sample_vis
                   (steps 5) sample_preset sample_world))
     = trace sample_world.
Proof.
  assert (H : forall r, In r [1; 1] ->
                input_filter (heap sample_world r) <> None
                /\ output_filter (heap sample_world r) <> None).
  { intros r [<-|[<-|[]]]; split; discriminate. }
  split; [exact H|].
  exact (explicit_filters_instantiate_nothing [1; 1] sample_env
           sample_schedule sample_vis (steps 5) sample_preset sample_world H).
Defined.

Lemma second_constructor_keeps_filters_witness :
  first_call
  = (Ok (returned_self [0; 1] sample_env sample_schedule sample_vis (steps 5)
           sample_preset), snd first_call)
  /\ second_call
     = (Ok (returned_self [0; 2] other_env sample_schedule other_vis (steps 3)
              sample_preset), snd second_call)
  /\ In 0 [0; 1]
  /\ input_filter (heap (snd second_call) 0)
     = Some (default_input_filter sample_env)
  /\ output_filter (heap (snd second_call) 0)
     = Some (default_output_filter sample_env)
  /\ visualization (heap (snd second_call) 0) = Some other_vis.
Proof.
  split; [vm_compute; reflexivity|]. split; [vm_compute; reflexivity|].
  split; [left; reflexivity|].
  apply (second_constructor_keeps_filters [0; 1] [0; 2] sample_env other_env
           sample_schedule sample_schedule sample_vis other_vis (steps 5)
           (steps 3) sample_preset sample_preset sample_world
           (snd first_call) (snd second_call)
           (returned_self [0; 1] sample_env sample_schedule sample_vis
              (steps 5) sample_preset)
           (returned_self [0; 2] other_env sample_schedule other_vis
              (steps 3) sample_preset) 0).
  - vm_compute; reflexivity.
  - vm_compute; reflexivity.
  - left; reflexivity.
Defined.

Lemma step_budgets_witness :
  construct [0; 1; 0] sample_env sample_schedule sample_vis (steps 5)
    sample_preset sample_task sample_world
  = (Ok (sample_levels, sample_envs), snd sample_run)
  /\ isinstance_EnvironmentSteps (steps 5) = true
  /\ map steps_limit sample_levels = [steps 1; steps 5; steps 5].
Proof.
  split; [vm_compute; reflexivity|].
  apply (step_budgets [0; 1; 0] sample_env sample_schedule sample_vis
           (steps 5) sample_preset sample_task sample_world (snd sample_run)
           sample_levels sample_envs).
  vm_compute; reflexivity.
Defined.

Lemma create_graph_fails_half_way_witness :
  consecutive_steps_to_run_non_top_levels sample_unset_self = None
  /\ agents_params sample_unset_self = [0] ++ [1]
  /\ [0] <> []
  /\ exists w',
       _create_graph sample_unset_self sample_task sample_world
       = (Raise (AttributeError "consecutive_steps_to_run_non_top_levels"), w')
       /\ trace w'
          = trace sample_world
            ++ [NewEnvironment (next_obj sample_world);
                NewAgent (S (next_obj sample_world)) 1]
       /\ next_obj w' = S (S (next_obj sample_world))
       /\ (forall r, In r (agents_params sample_unset_self) ->
                     task_parameters (heap w' r) = Some sample_task)
       /\ name (heap w' 1) = Some (format_index "agent_" (length [0])).
Proof.
  split; [reflexivity|]. split; [reflexivity|]. split; [discriminate|].
  apply (create_graph_fails_half_way sample_unset_self sample_task
           sample_world [0] 1).
  - reflexivity.
  - reflexivity.
  - discriminate.
Defined.

Lemma agents_instantiated_from_witness :
  construct [0; 1; 0] sample_env sample_schedule sample_vis (steps 5)
    sample_preset sample_task sample_world
  = (Ok (sample_levels, sample_envs), snd sample_run)
  /\ map (fun lm => agent_params_seen (agents lm)) sample_levels
     = map (fun item =>
              prepared (length [0; 1; 0]) (fst item)
                (set_task_parameters (Some sample_task)
                   (filled sample_vis sample_env
                      (heap sample_world (snd item)))))
         (enumerate [0; 1; 0]).
Proof.
  split; [vm_compute; reflexivity|].
  apply (agents_instantiated_from [0; 1; 0] sample_env sample_schedule
           sample_vis (steps 5) sample_preset sample_task sample_world
           (snd sample_run) sample_levels sample_envs).
  vm_compute; reflexivity.
Defined.


Lemma create_graph_labels_first_level_witness :
  _create_graph sample_self sample_task sample_world
  = (Ok (sample_graph_levels, sample_graph_envs), snd sample_graph)
  /\ agents_params sample_self = [] ++ 0 :: [1; 0]
  /\ ~ In 0 []
  /\ name (heap (snd sample_graph) 0) = Some "agent_0"
  /\ is_a_highest_level_agent (heap (snd sample_graph) 0) = true
  /\ is_a_lowest_level_agent (heap (snd sample_graph) 0) = false
  /\ task_parameters (heap (snd sample_graph) 0) = Some sample_task.
Proof.
  split; [vm_compute; reflexivity|]. split; [reflexivity|].
  split; [intros []|].
  apply (create_graph_labels_first_level sample_self sample_task sample_world
           (snd sample_graph) sample_graph_levels sample_graph_envs
           [] [1; 0] 0).
  - vm_compute; reflexivity.
  - reflexivity.
  - intros [].
Defined.

Lemma construct_returns_iff_witness :
  (2 <= length [0; 1; 0] /\ isinstance_EnvironmentSteps (steps 5) = true)
  /\ exists lms envs w',
       construct [0; 1; 0] sample_env sample_schedule sample_vis (steps 5)
         sample_preset sample_task sample_world = (Ok (lms, envs), w').
Proof.
  assert (H : 2 <= length [0; 1; 0]
              /\ isinstance_EnvironmentSteps (steps 5) = true)
    by (split; [simpl; lia | reflexivity]).
  split; [exact H|].
  exact (proj2 (construct_returns_iff [0; 1; 0] sample_env sample_schedule
                  sample_vis (steps 5) sample_preset sample_task sample_world)
           H).
Defined.

Lemma create_graph_returns_iff_witness :
  agents_params
    (initial_self [] sample_env sample_schedule sample_vis sample_preset) = []
  /\ fst (_create_graph
            (initial_self [] sample_env sample_schedule sample_vis
               sample_preset) sample_task sample_world)
     = Ok ([], [created_env
                  (initial_self [] sample_env sample_schedule sample_vis
                     sample_preset) sample_world]).
Proof.
  split; [reflexivity|].
  exact (proj2 (create_graph_returns_iff
                  (initial_self [] sample_env sample_schedule sample_vis
                     sample_preset) sample_task sample_world) eq_refl).
Defined.
